(** * DNA matching service: alignment scorer and matching engine

    A shallow embedding of [src/app/application.py]: the similarity
    function [needleman_wunsch_similarity] and the two population scans
    of the [/identify] and [/missing] handlers, together with the
    properties the specification states about them. *)

From Stdlib Require Import ZArith QArith Lia List Ascii String.
From Stdlib Require Strings.Byte.
From stdpp Require Import gmap strings list.

Local Open Scope Z_scope.

(** ** Python arithmetic *)

Module Py.

(** Python's [round(x)] to an integer: nearest, ties to even.  The
    handlers' floats are modelled by exact rationals.  A similarity is
    an integer score over [3 * n] with [n <= 2000]; on those values the
    exact rounding of [100 * s] and the one of IEEE doubles agree for
    every similarity above 0.575, so at both thresholds (96 and 100). *)
Definition round (x : Q) : Z :=
  let n := Qnum x in
  let d := Z.pos (Qden x) in
  let q := n / d in
  let r := n mod d in
  match 2 * r ?= d with
  | Lt => q
  | Gt => q + 1
  | Eq => if Z.even q then q else q + 1
  end.

(** [a / b] on numbers: [None] stands for [ZeroDivisionError].  The
    quotient is kept in lowest terms, so that equal values are equal
    terms. *)
Definition truediv (a b : Z) : option Q :=
  if b =? 0 then None else Some (Qred (inject_Z a / inject_Z b)).

(** [s[:n]] on a string. *)
Definition slice_to (n : nat) (s : string) : string := String.substring 0 n s.

End Py.

(** ** Alignment scorer

    The score itself is computed by Biopython's
    [pairwise2.align.globalms], which is not part of the repository: the
    matrix below follows the algorithm the specification gives for it. *)

Section Alignment.

Variables match_score mismatch_penalty gap_penalty : Z.

(** Modelled from the spec: the score of a pair of symbols in the
    recurrence of [globalms], [match_score if seq1[i-1] == seq2[j-1] else
    mismatch_penalty]. *)
Definition substitution (a b : ascii) : Z :=
  if Ascii.eqb a b then match_score else mismatch_penalty.

Section Matrix.

Variable seq2 : list ascii.

(** Modelled from the spec: row 0 of the score matrix of [globalms],
    [M[0][j] = j * gap_penalty]. *)
Definition first_row : list Z :=
  map (fun j => Z.of_nat j * gap_penalty) (seq 0 (S (length seq2))).

(** Modelled from the spec: the cells 1.. of a row of the score matrix
    of [globalms], left to right by the recurrence; [diag] is
    [M[i-1][j-1]], [left] is [M[i][j-1]] and [above] holds
    [M[i-1][j..]]. *)
Fixpoint fill_row (a : ascii) (bs : list ascii) (diag left : Z)
    (above : list Z) : list Z :=
  match bs, above with
  | b :: bs', up :: above' =>
      let cell := Z.max (diag + substitution a b)
                        (Z.max (up + gap_penalty) (left + gap_penalty)) in
      cell :: fill_row a bs' up cell above'
  | _, _ => []
  end.

(** Modelled from the spec: row [i >= 1] of the score matrix of
    [globalms] from row [i - 1], with [M[i][0] = i * gap_penalty]; [a] is
    [seq1[i-1]]. *)
Definition next_row (i : nat) (a : ascii) (prev : list Z) : list Z :=
  match prev with
  | [] => []
  | d :: above =>
      let c0 := Z.of_nat i * gap_penalty in
      c0 :: fill_row a seq2 d c0 above
  end.

(** Modelled from the spec: the rows [i], [i + 1], ... of the score
    matrix of [globalms], [prev] being row [i] and [rest] the symbols of
    [seq1] not yet consumed. *)
Fixpoint rows_from (i : nat) (rest : list ascii) (prev : list Z)
    : list (list Z) :=
  prev :: match rest with
          | [] => []
          | a :: rest' => rows_from (S i) rest' (next_row (S i) a prev)
          end.

End Matrix.

(** Modelled from the spec: the [(len(seq1)+1) x (len(seq2)+1)] score
    matrix that [globalms] builds. *)
Definition score_matrix (seq1 seq2 : list ascii) : list (list Z) :=
  rows_from seq2 0 seq1 (first_row seq2).

(** Modelled from the spec: row [i] of the score matrix of [globalms]. *)
Definition row (seq1 seq2 : list ascii) (i : nat) : list Z :=
  nth i (score_matrix seq1 seq2) [].

(** Modelled from the spec: the cell [M[i][j]] of the score matrix of
    [globalms]. *)
Definition M (seq1 seq2 : list ascii) (i j : nat) : Z :=
  nth j (row seq1 seq2 i) 0.

End Alignment.

(** Modelled from the spec: [Bio.pairwise2.align.globalms], a function of
    the Biopython library, which the repository imports and does not
    contain.  The caller passes [gap_penalty] both as the gap-opening and
    as the gap-extension penalty, which is the linear gap cost of the
    spec's recurrence: global alignment by dynamic programming, the
    optimal score being [M[len(seq1)][len(seq2)]].  The result is the
    list of optimal alignments, of which the caller reads the score of
    the first only: an alignment is represented by its score.  No
    alignment is returned when a sequence is empty (the similarity is
    then "treated as 0"). *)
Definition globalms (seq1 seq2 : string)
    (match_score mismatch_penalty gap_penalty : Z) : list Z :=
  let s1 := list_ascii_of_string seq1 in
  let s2 := list_ascii_of_string seq2 in
  match s1, s2 with
  | [], _ | _, [] => []
  | _, _ =>
      [M match_score mismatch_penalty gap_penalty s1 s2 (length s1) (length s2)]
  end.

(** [needleman_wunsch_similarity], lines 11-19.  The handlers call it with
    its default parameters: 3, -1 and -2. *)
Definition needleman_wunsch_similarity (seq1 seq2 : string)
    (match_score mismatch_penalty gap_penalty : Z) : option Q :=
  let alignments := globalms seq1 seq2 match_score mismatch_penalty gap_penalty in
  match alignments with
  | [] => Some 0%Q
  | alignment_score :: _ =>
      let max_score :=
        Z.of_nat (Nat.max (String.length seq1) (String.length seq2))
        * match_score in
      Py.truediv alignment_score max_score
  end.

(** ** Matching engine *)

(** A JSON value of the responses.  The fields of a population record are
    strings: the identifier fields and the optional sequence. *)
Inductive value := Str (s : string) | Int (n : Z).

#[global] Instance value_eq_dec : EqDecision value.
Proof. solve_decision. Defined.

Definition info_keys : list string :=
  ["name"; "status"; "description"; "createdAt"; "updatedAt"; "address";
   "national_id"; "phone"; "gender"; "birthdate"; "bloodType"]%string.

(** [{key: entry[key] for key in info_keys if key in entry}] *)
Definition select_info (entry : gmap string string) : gmap string string :=
  foldr (fun key acc =>
           match entry !! key with
           | Some v => <[key:=v]> acc
           | None => acc
           end) ∅ info_keys.

(** *** Effects: exceptions and the trace of scorer invocations *)

Inductive exn := ZeroDivisionError | UnboundLocalError.

Inductive outcome (A : Type) := Ok (a : A) | Raise (e : exn).
Arguments Ok {A} a.
Arguments Raise {A} e.

(** One invocation of the scorer: its two arguments. *)
Definition call : Type := string * string.

Definition Eng (A : Type) : Type := list call -> outcome A * list call.

#[global] Instance eng_ret : MRet Eng := fun A a log => (Ok a, log).

#[global] Instance eng_bind : MBind Eng := fun A B k m log =>
  match m log with
  | (Ok a, log') => k a log'
  | (Raise e, log') => (Raise e, log')
  end.

Definition raise {A} (e : exn) : Eng A := fun log => (Raise e, log).

(** A handler starts with no scorer invocation behind it. *)
Definition run {A} (m : Eng A) : outcome A * list call := m [].

(** [needleman_wunsch_similarity(sequence_a, sequence_b)], recorded. *)
Definition score (sequence_a sequence_b : string) : Eng Q := fun log =>
  (match needleman_wunsch_similarity sequence_a sequence_b 3 (-1) (-2) with
   | Some similarity_score => Ok similarity_score
   | None => Raise ZeroDivisionError
   end, log ++ [(sequence_a, sequence_b)]).

(** [round(similarity_score * 100)] *)
Definition percentage (similarity_score : Q) : Z :=
  Py.round (similarity_score * 100)%Q.

(** *** The [/identify] handler, from line 131 on

    The upload checks and the population fetch (lines 106-129) come
    first and answer with status 401 before anything is scored; the
    handler is modelled from the point where the query sequence and the
    population are at hand. *)

Module Identify.

Inductive response :=
| InvalidStatus
    (* 400, "Invalid status. Please select one of: ..." *)
| Identification (matches : gmap string string) (similarity_percentage : Z)
    (* 200, "DNA MATCH", "Successful identification" *)
| NoMatches.
    (* 400, "No matches found." *)

Definition valid_statuses : list string :=
  ["missing"; "acknowledged"; "crime"; "disaster"]%string.

(** Lines 146-155: [None] is the early return of the invalid status.
    [selected_status] is [request.form.get('status')], which is [None]
    when the form has no such field. *)
Definition filter_population (population : list (gmap string string))
    (selected_status : option string) : option (list (gmap string string)) :=
  if decide (selected_status = Some "all"%string) then Some population
  else
    match selected_status with
    | Some status =>
        if decide (status ∈ valid_statuses)
        then Some (filter (fun entry => entry !! "status"%string = Some status)
                          population)
        else None
    | None => None
    end.

(** The local variables of the scan; [None] is a name not bound yet. *)
Record locals := Locals {
  matches : list (gmap string string);
  match_info : option (gmap string string);
  similarity_percentage : option Z
}.

Definition similarity_threshold : Q := 1.

(** The loop of lines 157-174; returning without the recursive call is
    the [break]. *)
Fixpoint scan (sequence_a : string) (filtered_data : list (gmap string string))
    (st : locals) : Eng locals :=
  match filtered_data with
  | [] => mret st
  | entry :: rest =>
      match entry !! "DNA_sequence"%string with
      | None => scan sequence_a rest st
      | Some dna =>
          let sequence_b := Py.slice_to 2000 dna in
          similarity_score ← score sequence_a sequence_b;
          let pct := percentage similarity_score in
          if Qeq_bool similarity_score similarity_threshold then
            let info := select_info entry in
            let st' := Locals (matches st ++ [info]) (Some info) (Some pct) in
            if pct =? 100 then mret st' else scan sequence_a rest st'
          else
            scan sequence_a rest (Locals (matches st) (match_info st) (Some pct))
      end
  end.

Definition identify (sequence_a : string)
    (population : list (gmap string string))
    (selected_status : option string) : Eng response :=
  match filter_population population selected_status with
  | None => mret InvalidStatus
  | Some filtered_data =>
      st ← scan sequence_a filtered_data (Locals [] None None);
      match matches st with
      | [] => mret NoMatches
      | _ :: _ =>
          match match_info st, similarity_percentage st with
          | Some info, Some pct => mret (Identification info pct)
          | _, _ => raise UnboundLocalError
          end
      end
  end.

End Identify.

(** *** The [/missing] handler, from line 226 on *)

Module Missing.

(** An element of [potential_children_info]. *)
Record relative := Relative { relative_data : gmap string string }.

#[global] Instance relative_eq_dec : EqDecision relative.
Proof. solve_decision. Defined.

Inductive response :=
| MainWithRelatives (main_match_info : gmap string value)
                    (potential_relative_info : list relative)
    (* 200, "Successful identification" *)
| MainAlone (main_match_info : gmap string value)
    (* 200, with the single item "No matching child found" *)
| NoMatch.
    (* 404, "No match found." *)

Definition SIMILARITY_THRESHOLD : Z := 100.
Definition SIMILARITY_THRESHOLD_CHILD : Z := 96.

Record locals := Locals {
  match_info : gmap string value;
  potential_children_info : list relative
}.

(** Lines 241-244. *)
Definition main_info (entry : gmap string string) (similarity_percentage : Z)
    : gmap string value :=
  <["match_status"%string := Str "DNA MATCH"]>
    (<["similarity_percentage"%string := Int similarity_percentage]>
       (Str <$> select_info entry)).

(** The body of the loop, lines 234-252. *)
Definition scan_entry (sequence_a : string) (st : locals)
    (entry : gmap string string) : Eng locals :=
  match entry !! "DNA_sequence"%string with
  | None => mret st
  | Some dna =>
      let sequence_b := Py.slice_to 2000 dna in
      similarity_score ← score sequence_a sequence_b;
      let similarity_percentage := percentage similarity_score in
      let match_info :=
        if similarity_percentage =? SIMILARITY_THRESHOLD
        then main_info entry similarity_percentage
        else match_info st in
      let potential_children_info :=
        if SIMILARITY_THRESHOLD_CHILD <=? similarity_percentage
        then potential_children_info st ++ [Relative (select_info entry)]
        else potential_children_info st in
      mret (Locals match_info potential_children_info)
  end.

(** The loop of lines 233-252: there is no [break]. *)
Fixpoint scan (sequence_a : string) (population : list (gmap string string))
    (st : locals) : Eng locals :=
  match population with
  | [] => mret st
  | entry :: rest =>
      st' ← scan_entry sequence_a st entry;
      scan sequence_a rest st'
  end.

(** Line 256: the candidates whose [national_id] differs from the main
    match's; an absent field reads as [None] on both sides. *)
Definition other_than (main_national_id : option value)
    (children : list relative) : list relative :=
  filter (fun child =>
            Str <$> (relative_data child !! "national_id"%string)
            ≠ main_national_id) children.

Definition missing (sequence_a : string)
    (population : list (gmap string string)) : Eng response :=
  st ← scan sequence_a population (Locals ∅ []);
  if decide (match_info st = ∅) then mret NoMatch
  else
    let main_national_id := match_info st !! "national_id"%string in
    match other_than main_national_id (potential_children_info st) with
    | [] => mret (MainAlone (match_info st))
    | remaining => mret (MainWithRelatives (match_info st) remaining)
    end.

End Missing.

(** ** Uploaded files *)

(** Python [bytes], as the handlers use them. *)
Module PyBytes.

#[global] Instance byte_eq_dec : EqDecision Byte.byte := Byte.byte_eq_dec.

(** ASCII whitespace, which [bytes.strip()] removes: space, [\t], [\n],
    [\v], [\f] and [\r]. *)
Definition is_space (b : Byte.byte) : bool :=
  match b with
  | Byte.x20 | Byte.x09 | Byte.x0a | Byte.x0b | Byte.x0c | Byte.x0d => true
  | _ => false
  end.

Fixpoint lstrip (s : list Byte.byte) : list Byte.byte :=
  match s with
  | [] => []
  | b :: s' => if is_space b then lstrip s' else s
  end.

Definition rstrip (s : list Byte.byte) : list Byte.byte := rev (lstrip (rev s)).

(** [s.strip()] *)
Definition strip (s : list Byte.byte) : list Byte.byte := rstrip (lstrip s).

(** [s.startswith(prefix)] *)
Definition startswith (s prefix : list Byte.byte) : bool :=
  bool_decide (take (length prefix) s = prefix).

(** [s[:n]] for [n > 0] *)
Definition slice_to (n : Z) (s : list Byte.byte) : list Byte.byte := take (Z.to_nat n) s.

Definition is_ascii (b : Byte.byte) : bool := (Byte.to_N b <? 128)%N.

(** [data.decode()] on ASCII data, where UTF-8 decoding maps every Byte.byte
    to the character of the same code.  [None] is data with a Byte.byte above
    127, which Python either refuses with [UnicodeDecodeError] or decodes
    to characters outside ASCII: the model covers neither. *)
Definition decode (data : list Byte.byte) : option string :=
  if forallb is_ascii data then Some (string_of_list_byte data) else None.

End PyBytes.

(** The loop of [retrieve_dna_sequence_from_file], lines 24-32, from the
    state [data], [total_length] on; [file] is the list of the lines that
    iterating over the upload yields.  Returning [data] at once is the
    [break]. *)
Fixpoint collect (file : list (list Byte.byte)) (max_length : Z)
    (data : list Byte.byte) (total_length : Z) : list Byte.byte :=
  match file with
  | [] => data
  | line :: rest =>
      let line := PyBytes.strip line in
      if PyBytes.startswith line [Byte.x3e] then
        collect rest max_length data total_length
      else
        let remaining_length := max_length - total_length in
        if remaining_length <=? 0 then data
        else
          collect rest max_length
            (data ++ PyBytes.slice_to remaining_length line)
            (total_length + Z.min (Z.of_nat (length line)) remaining_length)
  end.

(** [retrieve_dna_sequence_from_file], lines 21-33; the handlers call it
    with [max_length = 2000]. *)
Definition retrieve_dna_sequence_from_file (file : list (list Byte.byte))
    (max_length : Z) : option string :=
  PyBytes.decode (collect file max_length [] 0).

(** ** The population source *)

Module Api.

(** What [requests.get(API_URL)] and [response.json()] come to: an
    exception with its text, or a response with its status code and a
    body, which is no JSON (the exception of [json()] with its text), a
    JSON value that is no object, or a JSON object.  Of an object the
    code reads the keys ['population'] and ['error'] only: it is
    represented by what it has under these two; as in the handlers, a
    population is a list of records. *)
Record api_dict := ApiDict {
  population : option (list (gmap string string));
  error : option value
}.

Inductive body := NotJson (e : string) | NotDict | Dict (d : api_dict).

Inductive fetched := Failed (e : string) | Response (status_code : Z) (json : body).

Definition error_dict (message : string) : api_dict :=
  ApiDict None (Some (Str message)).

(** [retrieve_api_data], lines 35-47, on the outcome of the request. *)
Definition retrieve_api_data (response : fetched) : api_dict :=
  match response with
  | Failed e => error_dict e
  | Response status_code json =>
      if status_code =? 200 then
        match json with
        | NotJson e => error_dict e
        | NotDict => error_dict "API response is not in the expected format."
        | Dict api_data =>
            match population api_data with
            | None => error_dict "API response is not in the expected format."
            | Some _ => api_data
            end
        end
      else error_dict "Failed to retrieve data from API"
  end.

End Api.

(** ** The handlers, from the request on *)

Module Routes.

(** An upload of [request.files]: its file name and its lines. *)
Record FileStorage := Upload { filename : string; stream : list (list Byte.byte) }.

Record request := Request {
  method : string;
  files : gmap string FileStorage;
  form : gmap string string
}.

(** A reply: a JSON message with status code 401, a rendered template,
    or the answer of the handler's own work. *)
Inductive reply (A : Type) :=
| Rejected (message : value)
| Page (template : string)
| Answer (a : A).
Arguments Rejected {A} message.
Arguments Page {A} template.
Arguments Answer {A} a.

(** The answer of [/compare]: status 200, "Successful Comparison". *)
Record comparison := Comparison {
  similarity_percentage : Z;
  match_status : string
}.

(** [compare], lines 62-90.  The result is [None] when an upload is not
    ASCII (see [PyBytes.decode]); nothing has been scored then. *)
Definition compare (request : request) : option (Eng (reply comparison)) :=
  match files request !! "file_a"%string, files request !! "file_b"%string with
  | Some file_a, Some file_b =>
      if decide (filename file_a = ""%string \/ filename file_b = ""%string)
      then Some (mret (Rejected
             (Str "Please upload non-empty files for both DNA sequences.")))
      else
        sequence_a ← retrieve_dna_sequence_from_file (stream file_a) 2000;
        sequence_b ← retrieve_dna_sequence_from_file (stream file_b) 2000;
        Some (similarity_score ← score sequence_a sequence_b;
              let similarity_percentage := percentage similarity_score in
              let match_status :=
                if Qeq_bool similarity_score 1
                then "DNA MATCH"%string else "DNA Not MATCH"%string in
              mret (Answer (Comparison similarity_percentage match_status)))
  | _, _ =>
      Some (mret (Rejected (Str "Please upload a file for both DNA sequences.")))
  end.

(** [identify], lines 105-193: the checks of the upload and of the
    population, then the scan of [Identify.identify].  When the
    population is missing the loop is skipped and no match is found. *)
Definition identify (request : request) (response : Api.fetched)
    : option (Eng (reply Identify.response)) :=
  match files request !! "file"%string with
  | None => Some (mret (Rejected (Str "Please upload a file of DNA sequences.")))
  | Some file_a =>
      if decide (filename file_a = ""%string)
      then Some (mret (Rejected
             (Str "Please upload a non-empty file for the DNA sequence.")))
      else
        let selected_status := form request !! "status"%string in
        let api_data := Api.retrieve_api_data response in
        match Api.error api_data with
        | Some message => Some (mret (Rejected message))
        | None =>
            sequence_a ← retrieve_dna_sequence_from_file (stream file_a) 2000;
            match Api.population api_data with
            | Some population =>
                Some (r ← Identify.identify sequence_a population selected_status;
                      mret (Answer r))
            | None => Some (mret (Answer Identify.NoMatches))
            end
        end
  end.

(** [missing], lines 201-279: the same checks, the sequence being read
    before the population is fetched, then the scan of
    [Missing.missing]. *)
Definition missing (request : request) (response : Api.fetched)
    : option (Eng (reply Missing.response)) :=
  if decide (method request = "GET"%string) then Some (mret (Page "missing.html"))
  else
    match files request !! "file"%string with
    | None => Some (mret (Rejected (Str "Please upload a file of DNA sequences.")))
    | Some file_a =>
        if decide (filename file_a = ""%string)
        then Some (mret (Rejected
               (Str "Please upload a non-empty file for the DNA sequence.")))
        else
          sequence_a ← retrieve_dna_sequence_from_file (stream file_a) 2000;
          let api_data := Api.retrieve_api_data response in
          match Api.error api_data with
          | Some message => Some (mret (Rejected message))
          | None =>
              match Api.population api_data with
              | Some population =>
                  Some (r ← Missing.missing sequence_a population;
                        mret (Answer r))
              | None => Some (mret (Answer Missing.NoMatch))
              end
          end
    end.

End Routes.

(** ** Notions for the statements *)

(** What the scan of an entry passes to the scorer, when the entry
    carries a sequence. *)
Definition call_of (sequence_a : string) (entry : gmap string string)
    : option call :=
  dna ← entry !! "DNA_sequence"%string;
  Some (sequence_a, Py.slice_to 2000 dna).

(** The scorer invocations of a scan that runs over all of [population]. *)
Definition calls (sequence_a : string) (population : list (gmap string string))
    : list call :=
  omap (call_of sequence_a) population.

(** The similarity of an entry to the query, and its rounded percentage. *)
Definition entry_similarity (sequence_a : string)
    (entry : gmap string string) : option Q :=
  dna ← entry !! "DNA_sequence"%string;
  needleman_wunsch_similarity sequence_a (Py.slice_to 2000 dna) 3 (-1) (-2).

Definition entry_percentage (sequence_a : string)
    (entry : gmap string string) : option Z :=
  percentage <$> entry_similarity sequence_a entry.

(** The two tests of the loop body of [/missing], lines 241 and 247, on
    an entry of the population. *)
Definition exact_tier (sequence_a : string) (entry : gmap string string)
    : Prop :=
  entry_percentage sequence_a entry = Some Missing.SIMILARITY_THRESHOLD.

Definition relative_tier (sequence_a : string) (entry : gmap string string)
    : Prop :=
  match entry_percentage sequence_a entry with
  | Some pct => Missing.SIMILARITY_THRESHOLD_CHILD <= pct
  | None => False
  end.

#[global] Instance exact_tier_dec sequence_a entry :
  Decision (exact_tier sequence_a entry).
Proof. unfold exact_tier. apply _. Defined.

#[global] Instance relative_tier_dec sequence_a entry :
  Decision (relative_tier sequence_a entry).
Proof. unfold relative_tier. destruct (entry_percentage _ _); apply _. Defined.

(** The main match after a scan of [/missing]: the one of the last entry
    that passes the exact test, else the one before the scan. *)
Definition last_exact (sequence_a : string)
    (population : list (gmap string string))
    (before : gmap string value) : gmap string value :=
  foldl (fun main entry =>
           if decide (exact_tier sequence_a entry)
           then Missing.main_info entry 100
           else main) before population.

(** The candidates of a scan of [/missing]: the entries that pass the
    relative test, in the order of the population. *)
Definition candidates (sequence_a : string)
    (population : list (gmap string string)) : list Missing.relative :=
  (fun entry => Missing.Relative (select_info entry))
    <$> filter (relative_tier sequence_a) population.

(** The test of line 166 of [/identify] on an entry: its similarity
    equals 1. *)
Definition identical (sequence_a : string) (entry : gmap string string)
    : Prop :=
  match entry_similarity sequence_a entry with
  | Some s => (s == 1)%Q
  | None => False
  end.

#[global] Instance identical_dec sequence_a entry :
  Decision (identical sequence_a entry).
Proof.
  unfold identical. destruct (entry_similarity _ _) as [s|]; [|apply _].
  destruct (Qeq_dec s 1); [by left | by right].
Defined.

(** The main match and the relatives that a response reports. *)
Definition main_of (r : Missing.response) : option (gmap string value) :=
  match r with
  | Missing.MainWithRelatives main _ | Missing.MainAlone main => Some main
  | Missing.NoMatch => None
  end.

Definition relatives_of (r : Missing.response) : list Missing.relative :=
  match r with
  | Missing.MainWithRelatives _ relatives => relatives
  | Missing.MainAlone _ | Missing.NoMatch => []
  end.

(** ** Sample data *)

Module Samples.

(** [s * n] *)
Fixpoint times (n : nat) (s : string) : string :=
  match n with
  | O => EmptyString
  | S n' => s +:+ times n' s
  end.

Definition record (national_id dna : string) : gmap string string :=
  {[ "name" := "N" +:+ national_id; "status" := "missing";
     "national_id" := national_id; "DNA_sequence" := dna ]}%string.

(** A query of 300 symbols and records at 0, 1, 9, 10 and 11 mismatches
    from it: similarities 1, 896/900, 864/900 = 0.96, 860/900 and
    856/900. *)
Definition query : string := times 300 "A".
Definition same : gmap string string := record "0" (times 300 "A").
Definition near : gmap string string := record "1" (times 299 "A" +:+ "C").
Definition kin : gmap string string :=
  record "9" (times 291 "A" +:+ times 9 "C").
Definition close : gmap string string :=
  record "10" (times 290 "A" +:+ times 10 "C").
Definition far : gmap string string :=
  record "11" (times 289 "A" +:+ times 11 "C").

(** Two records with the query's own sequence, and one without any. *)
Definition twin1 : gmap string string := record "21" "ACGT".
Definition twin2 : gmap string string := record "22" "ACGT".
Definition other : gmap string string := record "23" "ACGA".
Definition bare : gmap string string := {[ "name" := "no sequence" ]}%string.

End Samples.

(** ** Notions for the statements on uploads and requests *)

(** The lines of an upload that carry sequence data: stripped, and not
    starting with the marker [>]. *)
Definition sequence_lines (file : list (list Byte.byte))
    : list (list Byte.byte) :=
  filter (fun line => PyBytes.startswith line [Byte.x3e] = false)
         (PyBytes.strip <$> file).

(** A line that adds nothing to the sequence: a header, or white space
    only. *)
Definition ignored_line (line : list Byte.byte) : Prop :=
  PyBytes.startswith (PyBytes.strip line) [Byte.x3e] = true \/
  forallb PyBytes.is_space line = true.

(** A record with its sequence cut to its first 2000 symbols. *)
Definition truncated (entry : gmap string string) : gmap string string :=
  alter (Py.slice_to 2000) "DNA_sequence"%string entry.

(** What a handler answers and what it has passed to the scorer. *)
Definition answer {A} (m : option (Eng A)) : option (outcome A) :=
  (fun m => fst (run m)) <$> m.

Definition scored {A} (m : option (Eng A)) : option (list call) :=
  (fun m => snd (run m)) <$> m.

(** Sample uploads: a FASTA file with a header, a blank line and white
    space around the data, and requests that carry it. *)
Module Uploads.

Definition nl : string := String "010"%char EmptyString.

Definition lines (text : list string) : list (list Byte.byte) :=
  list_byte_of_string <$> text.

Definition fasta : list (list Byte.byte) :=
  lines [">sample 1" +:+ nl; "ACGT" +:+ nl; nl; "  GGCC " +:+ nl; "TTAA"]%string.

Definition plain : list (list Byte.byte) := lines ["ACGTGGCCTTAA" +:+ nl]%string.

Definition acgt : list (list Byte.byte) := lines [">query" +:+ nl; "ACGT" +:+ nl]%string.

Definition acga : list (list Byte.byte) := lines ["ACGA" +:+ nl]%string.

End Uploads.

(** Sample requests and a sample answer of the population source. *)
Module Requests.

Definition search (status : string) : Routes.request :=
  Routes.Request "POST"
    ({[ "file" := Routes.Upload "query.fa" Uploads.acgt ]}%string
       : gmap string Routes.FileStorage)
    ({[ "status" := status ]}%string : gmap string string).

Definition page : Routes.request :=
  Routes.Request "GET" (∅ : gmap string Routes.FileStorage)
    (∅ : gmap string string).

Definition served : Api.fetched :=
  Api.Response 200
    (Api.Dict (Api.ApiDict (Some [Samples.other; Samples.twin1; Samples.twin2])
                 None)).

End Requests.

(** * Properties *)

(** ** The score matrix satisfies the recurrence *)

Section MatrixFacts.

Variables match_score mismatch_penalty gap_penalty : Z.

Local Abbreviation sub := (substitution match_score mismatch_penalty).
Local Abbreviation fill := (fill_row match_score mismatch_penalty gap_penalty).
Local Abbreviation next := (next_row match_score mismatch_penalty gap_penalty).
Local Abbreviation rows := (rows_from match_score mismatch_penalty gap_penalty).
Local Abbreviation cell := (M match_score mismatch_penalty gap_penalty).

Lemma substitution_sym a b : sub a b = sub b a.
Proof. unfold substitution. by rewrite Ascii.eqb_sym. Qed.

Lemma substitution_refl a : sub a a = match_score.
Proof. unfold substitution. by rewrite Ascii.eqb_refl. Qed.

Lemma length_first_row seq2 :
  length (first_row gap_penalty seq2) = S (length seq2).
Proof. unfold first_row. by rewrite length_map, length_seq. Qed.

Lemma nth_first_row seq2 j :
  (j <= length seq2)%nat ->
  nth j (first_row gap_penalty seq2) 0 = Z.of_nat j * gap_penalty.
Proof.
  intros Hj. unfold first_row.
  change 0 with ((fun j => Z.of_nat j * gap_penalty) 0%nat).
  rewrite map_nth, seq_nth by lia. reflexivity.
Qed.

Lemma length_fill_row a bs diag left above :
  length above = length bs -> length (fill a bs diag left above) = length bs.
Proof.
  revert diag left above.
  induction bs as [|b bs IH]; intros diag left [|up above] H; simpl in *;
    try lia.
  rewrite IH; lia.
Qed.

Lemma length_next_row seq2 i a prev :
  length prev = S (length seq2) -> length (next seq2 i a prev) = S (length seq2).
Proof.
  destruct prev as [|d above]; simpl; intros H; [lia|].
  rewrite length_fill_row; lia.
Qed.

(** A cell of [fill_row] is the maximum over its three neighbours. *)
Lemma nth_fill_row a d0 : forall j bs diag left above,
  (j < length bs)%nat -> length above = length bs ->
  nth j (fill a bs diag left above) 0 =
  Z.max (nth j (diag :: above) 0 + sub a (nth j bs d0))
        (Z.max (nth j above 0 + gap_penalty)
               (nth j (left :: fill a bs diag left above) 0 + gap_penalty)).
Proof.
  induction j as [|j IH]; intros [|b bs] diag left [|up above] Hj Hlen;
    simpl in Hj, Hlen; try lia.
  - reflexivity.
  - cbn [fill_row nth]. apply IH; lia.
Qed.

Lemma nth_next_row_0 seq2 i a prev :
  prev <> [] -> nth 0 (next seq2 i a prev) 0 = Z.of_nat i * gap_penalty.
Proof. destruct prev; [congruence | reflexivity]. Qed.

Lemma nth_next_row_S seq2 i a d0 prev j :
  (j < length seq2)%nat -> length prev = S (length seq2) ->
  nth (S j) (next seq2 i a prev) 0 =
  Z.max (nth j prev 0 + sub a (nth j seq2 d0))
        (Z.max (nth (S j) prev 0 + gap_penalty)
               (nth j (next seq2 i a prev) 0 + gap_penalty)).
Proof.
  destruct prev as [|d above]; simpl; intros Hj Hlen; [lia|].
  apply nth_fill_row; lia.
Qed.

(** Row [i + 1] of the matrix is [next_row] of row [i]. *)
Lemma nth_rows_from_S seq2 d0 : forall i k rest prev,
  (i < length rest)%nat ->
  nth (S i) (rows seq2 k rest prev) [] =
  next seq2 (S (k + i)) (nth i rest d0) (nth i (rows seq2 k rest prev) []).
Proof.
  induction i as [|i IH]; intros k [|a rest] prev Hi; simpl in Hi; try lia.
  - simpl. destruct rest; simpl; by rewrite Nat.add_0_r.
  - change (nth (S (S i)) (rows seq2 k (a :: rest) prev) [])
      with (nth (S i) (rows seq2 (S k) rest (next seq2 (S k) a prev)) []).
    rewrite IH by lia.
    replace (S (S k + i)) with (S (k + S i)) by lia. reflexivity.
Qed.

Lemma length_nth_rows_from seq2 : forall i k rest prev,
  (i <= length rest)%nat -> length prev = S (length seq2) ->
  length (nth i (rows seq2 k rest prev) []) = S (length seq2).
Proof.
  induction i as [|i IH]; intros k rest prev Hi Hlen.
  - by destruct rest.
  - destruct rest as [|a rest]; simpl in Hi; [lia|].
    change (nth (S i) (rows seq2 k (a :: rest) prev) [])
      with (nth i (rows seq2 (S k) rest (next seq2 (S k) a prev)) []).
    apply IH; [lia|]. by apply length_next_row.
Qed.

Section Cells.

Variables seq1 seq2 : list ascii.

Local Abbreviation matrix_row :=
  (row match_score mismatch_penalty gap_penalty seq1 seq2).

Lemma row_0 : matrix_row 0 = first_row gap_penalty seq2.
Proof. unfold row, score_matrix. by destruct seq1. Qed.

Lemma row_S i d0 :
  (i < length seq1)%nat -> matrix_row (S i) = next seq2 (S i) (nth i seq1 d0) (matrix_row i).
Proof.
  intros Hi. unfold row, score_matrix.
  by rewrite (nth_rows_from_S seq2 d0).
Qed.

Lemma length_row i : (i <= length seq1)%nat -> length (matrix_row i) = S (length seq2).
Proof.
  intros Hi. unfold row, score_matrix.
  apply length_nth_rows_from; [done | apply length_first_row].
Qed.

(** Base case: [M[0][j] = j * gap_penalty]. *)
Lemma M_0_j j :
  (j <= length seq2)%nat -> cell seq1 seq2 0 j = Z.of_nat j * gap_penalty.
Proof. intros Hj. unfold M. rewrite row_0. by apply nth_first_row. Qed.

(** Base case: [M[i][0] = i * gap_penalty]. *)
Lemma M_i_0 i :
  (i <= length seq1)%nat -> cell seq1 seq2 i 0 = Z.of_nat i * gap_penalty.
Proof.
  intros Hi. destruct i as [|i]; [by apply M_0_j; lia|].
  unfold M. rewrite (row_S i "000"%char) by lia.
  apply nth_next_row_0. intros E.
  pose proof (length_row i ltac:(lia)) as H. rewrite E in H. simpl in H. lia.
Qed.

(** Recurrence: [M[i][j]] is the maximum of the diagonal, upper and
    left neighbours with their costs. *)
Lemma M_rec i j d0 :
  (i < length seq1)%nat -> (j < length seq2)%nat ->
  cell seq1 seq2 (S i) (S j) =
  Z.max (cell seq1 seq2 i j + sub (nth i seq1 d0) (nth j seq2 d0))
        (Z.max (cell seq1 seq2 i (S j) + gap_penalty)
               (cell seq1 seq2 (S i) j + gap_penalty)).
Proof.
  intros Hi Hj. unfold M. rewrite (row_S i d0) by lia.
  apply nth_next_row_S; [done | apply length_row; lia].
Qed.

End Cells.

End MatrixFacts.

(** ** Symmetry and identity of the alignment score *)

Section ScoreFacts.

Variables match_score mismatch_penalty gap_penalty : Z.

Local Abbreviation cell := (M match_score mismatch_penalty gap_penalty).

Lemma M_swap seq1 seq2 : forall i j,
  (i <= length seq1)%nat -> (j <= length seq2)%nat ->
  cell seq1 seq2 i j = cell seq2 seq1 j i.
Proof.
  induction i as [|i IHi].
  - intros j _ Hj. by rewrite M_0_j, M_i_0.
  - induction j as [|j IHj]; intros Hi Hj.
    + by rewrite M_i_0, M_0_j.
    + rewrite (M_rec _ _ _ seq1 seq2 i j "000"%char) by lia.
      rewrite (M_rec _ _ _ seq2 seq1 j i "000"%char) by lia.
      rewrite (IHi j), (IHi (S j)), IHj by lia.
      rewrite (substitution_sym _ _ (nth i seq1 _)). lia.
Qed.

Hypothesis match_nonneg : 0 <= match_score.
Hypothesis mismatch_le_match : mismatch_penalty <= match_score.
Hypothesis gap_nonpos : gap_penalty <= 0.

Lemma substitution_le a b :
  substitution match_score mismatch_penalty a b <= match_score.
Proof. unfold substitution. destruct (Ascii.eqb a b); lia. Qed.

(** No cell exceeds a match at every position of the shorter prefix. *)
Lemma M_upper seq1 seq2 : forall i j,
  (i <= length seq1)%nat -> (j <= length seq2)%nat ->
  cell seq1 seq2 i j <= match_score * Z.of_nat i /\
  cell seq1 seq2 i j <= match_score * Z.of_nat j.
Proof.
  induction i as [|i IHi].
  - intros j _ Hj. rewrite M_0_j by done. nia.
  - induction j as [|j IHj]; intros Hi Hj.
    + rewrite M_i_0 by done. nia.
    + rewrite (M_rec _ _ _ seq1 seq2 i j "000"%char) by lia.
      pose proof (substitution_le (nth i seq1 "000"%char) (nth j seq2 "000"%char)).
      destruct (IHi j) as [? ?]; [lia..|].
      destruct (IHi (S j)) as [? ?]; [lia..|].
      destruct IHj as [? ?]; [lia..|].
      rewrite !Nat2Z.inj_succ in *. nia.
Qed.

(** A sequence aligned with itself scores a match at every position. *)
Lemma M_diagonal seq : forall i,
  (i <= length seq)%nat -> cell seq seq i i = match_score * Z.of_nat i.
Proof.
  induction i as [|i IHi]; intros Hi.
  - rewrite M_0_j by lia. lia.
  - destruct (M_upper seq seq (S i) (S i)) as [Hup _]; [lia..|].
    apply Z.le_antisymm; [done|].
    rewrite (M_rec _ _ _ seq seq i i "000"%char) by lia.
    rewrite substitution_refl, IHi by lia.
    rewrite Nat2Z.inj_succ. lia.
Qed.

End ScoreFacts.

Lemma length_list_ascii_of_string s :
  length (list_ascii_of_string s) = String.length s.
Proof. induction s as [|a s IH]; simpl; congruence. Qed.

Lemma truediv_self a : a <> 0 -> Py.truediv a a = Some 1%Q.
Proof.
  intros Ha. unfold Py.truediv.
  destruct (Z.eqb_spec a 0) as [|_]; [done|]. f_equal.
  change 1%Q with (Qred 1). apply Qred_complete.
  apply Qmult_inv_r. unfold Qeq. simpl. lia.
Qed.

(** With the default parameters the division never fails. *)
Lemma default_similarity_total seq1 seq2 :
  exists similarity_score,
    needleman_wunsch_similarity seq1 seq2 3 (-1) (-2) = Some similarity_score.
Proof.
  unfold needleman_wunsch_similarity, globalms.
  destruct seq1 as [|a seq1]; [by eexists|].
  destruct seq2 as [|b seq2]; [by eexists|].
  cbn [list_ascii_of_string String.length]. unfold Py.truediv.
  match goal with |- context [?x =? 0] => destruct (Z.eqb_spec x 0) as [E|_] end;
    [lia | by eexists].
Qed.

Lemma truediv_le_1 a b s :
  0 < b -> a <= b -> Py.truediv a b = Some s -> (s <= 1)%Q.
Proof.
  intros Hb Hab. unfold Py.truediv.
  destruct (Z.eqb_spec b 0) as [|_]; [lia|]. intros [= <-].
  rewrite Qred_correct. destruct b as [|p|p]; try lia.
  unfold Qle, Qdiv, Qmult, Qinv, inject_Z. simpl. lia.
Qed.

(** With the default parameters a similarity never exceeds 1. *)
Lemma default_similarity_le_1 seq1 seq2 s :
  needleman_wunsch_similarity seq1 seq2 3 (-1) (-2) = Some s -> (s <= 1)%Q.
Proof.
  unfold needleman_wunsch_similarity, globalms.
  rewrite <- !length_list_ascii_of_string.
  destruct (list_ascii_of_string seq1) as [|a s1] eqn:E1;
    [by intros [= <-]|].
  destruct (list_ascii_of_string seq2) as [|b s2] eqn:E2;
    [by intros [= <-]|].
  apply truediv_le_1; [simpl; lia|].
  destruct (M_upper 3 (-1) (-2) ltac:(lia) ltac:(lia) ltac:(lia)
              (a :: s1) (b :: s2) (length (a :: s1)) (length (b :: s2)))
    as [H1 H2]; [lia..|].
  lia.
Qed.

(** ** The scorer *)

Lemma globalms_swap A B match_score mismatch_penalty gap_penalty :
  globalms A B match_score mismatch_penalty gap_penalty =
  globalms B A match_score mismatch_penalty gap_penalty.
Proof.
  unfold globalms.
  destruct (list_ascii_of_string A) as [|a s1] eqn:E1;
    destruct (list_ascii_of_string B) as [|b s2] eqn:E2; try reflexivity.
  f_equal. by apply M_swap.
Qed.

(** C5: when either sequence has zero length the scorer returns 0.0,
    whatever the scoring parameters; so it does for two empty sequences
    and when exactly one is empty. *)
Theorem similarity_of_empty_sequence (seq1 seq2 : string)
    (match_score mismatch_penalty gap_penalty : Z) :
  String.length seq1 = 0%nat \/ String.length seq2 = 0%nat ->
  needleman_wunsch_similarity seq1 seq2 match_score mismatch_penalty gap_penalty
  = Some 0%Q.
Proof.
  intros [H|H]; unfold needleman_wunsch_similarity, globalms.
  - destruct seq1; [reflexivity | discriminate].
  - destruct seq2; [|discriminate]. by destruct (list_ascii_of_string seq1).
Qed.

Lemma similarity_of_empty_sequence_witness :
  needleman_wunsch_similarity "" "" 3 (-1) (-2) = Some 0%Q /\
  needleman_wunsch_similarity "ACGT" "" 3 (-1) (-2) = Some 0%Q /\
  needleman_wunsch_similarity "" "ACGT" 3 (-1) (-2) = Some 0%Q.
Proof.
  split; [|split].
  - apply (similarity_of_empty_sequence "" "" 3 (-1) (-2)). left. reflexivity.
  - apply (similarity_of_empty_sequence "ACGT" "" 3 (-1) (-2)). right. reflexivity.
  - apply (similarity_of_empty_sequence "" "ACGT" 3 (-1) (-2)). left. reflexivity.
Defined.

(** C8: a non-empty sequence aligned against itself with the default
    parameters has similarity exactly 1.0; the empty sequence has 0.0. *)
Theorem similarity_of_identical_sequences (A : string) :
  (String.length A <> 0%nat ->
   needleman_wunsch_similarity A A 3 (-1) (-2) = Some 1%Q) /\
  (String.length A = 0%nat ->
   needleman_wunsch_similarity A A 3 (-1) (-2) = Some 0%Q).
Proof.
  split; intros HA.
  - unfold needleman_wunsch_similarity, globalms.
    rewrite <- (length_list_ascii_of_string A) in *.
    destruct (list_ascii_of_string A) as [|a s] eqn:E; [done|].
    rewrite M_diagonal by (simpl; lia).
    rewrite Nat.max_id, Z.mul_comm.
    apply truediv_self. simpl. lia.
  - destruct A; [reflexivity | discriminate HA].
Qed.

Lemma similarity_of_identical_sequences_witness :
  needleman_wunsch_similarity "GATTACA" "GATTACA" 3 (-1) (-2) = Some 1%Q /\
  needleman_wunsch_similarity "" "" 3 (-1) (-2) = Some 0%Q.
Proof.
  split.
  - apply (similarity_of_identical_sequences "GATTACA"). simpl. lia.
  - apply (similarity_of_identical_sequences ""). reflexivity.
Defined.

(** C9: the raw alignment score is symmetric under swapping the two
    sequences, for any scoring parameters; so is the similarity. *)
Theorem raw_score_symmetric (A B : string)
    (match_score mismatch_penalty gap_penalty : Z) :
  globalms A B match_score mismatch_penalty gap_penalty =
  globalms B A match_score mismatch_penalty gap_penalty /\
  needleman_wunsch_similarity A B match_score mismatch_penalty gap_penalty =
  needleman_wunsch_similarity B A match_score mismatch_penalty gap_penalty.
Proof.
  split; [apply globalms_swap|].
  unfold needleman_wunsch_similarity.
  by rewrite (globalms_swap A B), Nat.max_comm.
Qed.

Example raw_score_example :
  globalms "GATTACA" "GCATGCT" 3 (-1) (-2) = [6] /\
  globalms "GCATGCT" "GATTACA" 3 (-1) (-2) = [6].
Proof. split; vm_compute; reflexivity. Qed.

(** ** Rounded percentages and the two thresholds *)

Lemma percentage_unfold (n : Z) (d : positive) :
  exists q r,
    n * 100 = Z.pos d * q + r /\ 0 <= r < Z.pos d /\
    percentage (n # d) =
      match 2 * r ?= Z.pos d with
      | Lt => q
      | Gt => q + 1
      | Eq => if Z.even q then q else q + 1
      end.
Proof.
  exists (n * 100 / Z.pos d), ((n * 100) mod Z.pos d).
  split; [apply Z.div_mod; lia|].
  split; [apply Z.mod_pos_bound; lia|].
  unfold percentage, Py.round. simpl. by rewrite Pos.mul_1_r.
Qed.

(** The percentage is 100 exactly from 0.995 to 1.005. *)
Lemma percentage_100_iff (s : Q) :
  percentage s = 100 <-> (199 # 200 <= s /\ s <= 201 # 200)%Q.
Proof.
  destruct s as [n d].
  destruct (percentage_unfold n d) as (q & r & Hn & Hr & ->).
  unfold Qle. simpl.
  destruct (Z.compare_spec (2 * r) (Z.pos d)) as [E|E|E].
  - destruct (Z.even q) eqn:Hq.
    + split; [intros ->; lia|]. intros [H1 H2].
      assert (q = 99 \/ q = 100) as [->| ->] by nia; [discriminate | done].
    + split.
      * intros Hq1. assert (q = 99) as -> by lia. lia.
      * intros [H1 H2]. assert (q = 99 \/ q = 100) as [->| ->] by nia;
          [done | discriminate].
  - split; [intros ->; lia | intros [H1 H2]; nia].
  - split; [intros Hq1; assert (q = 99) as -> by lia; lia|].
    intros [H1 H2]. nia.
Qed.

(** The percentage reaches 96 exactly from 0.955 on. *)
Lemma percentage_ge_96_iff (s : Q) :
  96 <= percentage s <-> (191 # 200 <= s)%Q.
Proof.
  destruct s as [n d].
  destruct (percentage_unfold n d) as (q & r & Hn & Hr & ->).
  unfold Qle. simpl.
  destruct (Z.compare_spec (2 * r) (Z.pos d)) as [E|E|E].
  - destruct (Z.even q) eqn:Hq.
    + split; [intros Hq1; nia|]. intros H.
      assert (q = 95 \/ 96 <= q) as [->|] by nia; [discriminate | done].
    + split; [intros Hq1; nia | intros H; nia].
  - split; [intros Hq1; nia | intros H; nia].
  - split; [intros Hq1; nia | intros H; nia].
Qed.

Lemma percentage_of_one (s : Q) : (s == 1)%Q -> percentage s = 100.
Proof.
  intros E. apply percentage_100_iff. rewrite E. split; by vm_compute.
Qed.

(** ** The scans *)

Lemma bind_ok {A B} (m : Eng A) (k : A -> Eng B) log a log' :
  m log = (Ok a, log') -> (m ≫= k) log = k a log'.
Proof. intros H. unfold mbind, eng_bind. by rewrite H. Qed.

Lemma score_ok sequence_a sequence_b log :
  exists similarity_score,
    needleman_wunsch_similarity sequence_a sequence_b 3 (-1) (-2)
      = Some similarity_score /\
    score sequence_a sequence_b log
      = (Ok similarity_score, log ++ [(sequence_a, sequence_b)]).
Proof.
  destruct (default_similarity_total sequence_a sequence_b) as [s Hs].
  exists s. split; [done|]. unfold score. by rewrite Hs.
Qed.

Lemma lookup_select (keys : list string) (entry : gmap string string) key :
  foldr (fun key acc =>
           match entry !! key with
           | Some v => <[key:=v]> acc
           | None => acc
           end) (∅ : gmap string string) keys !! key
  = if decide (key ∈ keys) then entry !! key else None.
Proof.
  induction keys as [|k ks IH]; cbn [foldr].
  - rewrite lookup_empty. case_decide as Hin; [by apply elem_of_nil in Hin | done].
  - destruct (decide (key = k)) as [->|Hne].
    + rewrite (decide_True (P := k ∈ k :: ks)) by apply list_elem_of_here.
      destruct (entry !! k) as [v|] eqn:E.
      * by rewrite lookup_insert_eq.
      * rewrite IH. by case_decide.
    + destruct (entry !! k) as [v|] eqn:E.
      * rewrite lookup_insert_ne, IH by done.
        repeat case_decide; rewrite ?elem_of_cons in *; tauto.
      * rewrite IH. repeat case_decide; rewrite ?elem_of_cons in *; tauto.
Qed.

Lemma national_id_of_select_info entry :
  select_info entry !! "national_id"%string = entry !! "national_id"%string.
Proof.
  unfold select_info. rewrite lookup_select.
  apply decide_True. unfold info_keys. rewrite !elem_of_cons. tauto.
Qed.

(** ** The scan of [/missing] *)

Section MissingScan.

Variable sequence_a : string.

Local Abbreviation exact := (exact_tier sequence_a).
Local Abbreviation relative := (relative_tier sequence_a).
Local Abbreviation main_after := (last_exact sequence_a).
Local Abbreviation relatives_in := (candidates sequence_a).

Lemma entry_percentage_None entry :
  entry !! "DNA_sequence"%string = None ->
  entry_percentage sequence_a entry = None /\ call_of sequence_a entry = None.
Proof.
  intros H. unfold entry_percentage, entry_similarity, call_of. by rewrite H.
Qed.

Lemma entry_percentage_Some entry dna s :
  entry !! "DNA_sequence"%string = Some dna ->
  needleman_wunsch_similarity sequence_a (Py.slice_to 2000 dna) 3 (-1) (-2)
    = Some s ->
  entry_percentage sequence_a entry = Some (percentage s) /\
  call_of sequence_a entry = Some (sequence_a, Py.slice_to 2000 dna).
Proof.
  intros H Hs. unfold entry_percentage, entry_similarity, call_of.
  rewrite H. simpl. by rewrite Hs.
Qed.

Lemma scan_entry_spec st entry log :
  Missing.scan_entry sequence_a st entry log =
  (Ok (Missing.Locals
         (if decide (exact entry) then Missing.main_info entry 100
          else Missing.match_info st)
         (Missing.potential_children_info st ++
          if decide (relative entry)
          then [Missing.Relative (select_info entry)] else [])),
   log ++ option_list (call_of sequence_a entry)).
Proof.
  unfold Missing.scan_entry.
  destruct (decide (exact entry)) as [Hx|Hx];
    destruct (decide (relative entry)) as [Hr|Hr];
    unfold exact_tier, relative_tier in Hx, Hr;
    destruct (entry !! "DNA_sequence"%string) as [dna|] eqn:Hdna.
  all: try (destruct (entry_percentage_None entry Hdna) as [Hp Hc];
            rewrite Hp in Hx, Hr; rewrite Hc; try done;
            destruct st; by rewrite !app_nil_r).
  all: destruct (score_ok sequence_a (Py.slice_to 2000 dna) log)
         as (s & Hs & Hsc);
       destruct (entry_percentage_Some entry dna s Hdna Hs) as [Hp Hc];
       rewrite Hp in Hx, Hr; rewrite Hc, (bind_ok _ _ _ _ _ Hsc);
       unfold Missing.SIMILARITY_THRESHOLD, Missing.SIMILARITY_THRESHOLD_CHILD in *;
       unfold mret, eng_ret; cbn [option_list].
  - assert (percentage s = 100) as -> by congruence. reflexivity.
  - assert (percentage s = 100) as E by congruence. rewrite E in Hr. lia.
  - destruct (Z.eqb_spec (percentage s) 100) as [E|E]; [congruence|].
    destruct (Z.leb_spec 96 (percentage s)); [done | lia].
  - destruct (Z.eqb_spec (percentage s) 100) as [E|E]; [congruence|].
    destruct (Z.leb_spec 96 (percentage s)); [lia|]. by rewrite app_nil_r.
Qed.

Lemma scan_spec : forall population st log,
  Missing.scan sequence_a population st log =
  (Ok (Missing.Locals
         (main_after population (Missing.match_info st))
         (Missing.potential_children_info st ++ relatives_in population)),
   log ++ calls sequence_a population).
Proof.
  induction population as [|entry rest IH]; intros st log.
  - destruct st. simpl. by rewrite !app_nil_r.
  - cbn [Missing.scan].
    rewrite (bind_ok _ _ _ _ _ (scan_entry_spec st entry log)), IH.
    cbn [Missing.match_info Missing.potential_children_info].
    unfold candidates, calls, last_exact. cbn [foldl].
    rewrite filter_cons. cbn [omap list_omap].
    rewrite <- !app_assoc. do 3 f_equal.
    + by destruct (decide (relative entry)).
    + by destruct (call_of sequence_a entry).
Qed.

End MissingScan.

(** ** The answer of [/missing] *)

Section MissingAnswer.

Variable sequence_a : string.

Local Abbreviation exact := (exact_tier sequence_a).
Local Abbreviation relative := (relative_tier sequence_a).

Lemma main_info_non_empty entry pct : Missing.main_info entry pct ≠ ∅.
Proof. unfold Missing.main_info. apply insert_non_empty. Qed.

Lemma last_exact_none population before :
  (forall entry, entry ∈ population -> ~ exact entry) ->
  last_exact sequence_a population before = before.
Proof.
  revert before. induction population as [|e rest IH]; intros before H; [done|].
  cbn [last_exact foldl].
  rewrite decide_False by (apply H; apply list_elem_of_here).
  apply IH. intros e' He'. apply H. by apply list_elem_of_further.
Qed.

Lemma last_exact_last pre entry post before :
  exact entry -> (forall e, e ∈ post -> ~ exact e) ->
  last_exact sequence_a (pre ++ entry :: post) before
  = Missing.main_info entry 100.
Proof.
  intros Hx Hpost. unfold last_exact. rewrite foldl_app. cbn [foldl].
  rewrite decide_True by done. by apply last_exact_none.
Qed.

(** Either no entry passes the exact test, or one is the last to. *)
Lemma exact_split (population : list (gmap string string)) :
  (forall entry, entry ∈ population -> ~ exact entry) \/
  exists pre entry post,
    population = pre ++ entry :: post /\ exact entry /\
    (forall e, e ∈ post -> ~ exact e).
Proof.
  induction population as [|e rest [IH|(pre & x & post & -> & Hx & Hpost)]].
  - left. intros e He. by apply elem_of_nil in He.
  - destruct (decide (exact e)) as [He|He].
    + right. by exists [], e, rest.
    + left. intros e' [->|He']%elem_of_cons; [done | by apply IH].
  - right. by exists (e :: pre), x, post.
Qed.

Lemma missing_spec population :
  run (Missing.missing sequence_a population) =
  (Ok (let main := last_exact sequence_a population ∅ in
       if decide (main = ∅) then Missing.NoMatch
       else
         match Missing.other_than (main !! "national_id"%string)
                 (candidates sequence_a population) with
         | [] => Missing.MainAlone main
         | remaining => Missing.MainWithRelatives main remaining
         end),
   calls sequence_a population).
Proof.
  unfold run, Missing.missing.
  rewrite (bind_ok _ _ _ _ _ (scan_spec sequence_a population _ [])).
  cbn [Missing.match_info Missing.potential_children_info app].
  destruct (decide (last_exact sequence_a population ∅ = ∅)); [done|].
  by destruct (Missing.other_than _ _).
Qed.

Lemma missing_no_exact population :
  (forall entry, entry ∈ population -> ~ exact entry) ->
  run (Missing.missing sequence_a population)
  = (Ok Missing.NoMatch, calls sequence_a population).
Proof.
  intros H. rewrite missing_spec. cbn zeta.
  rewrite (last_exact_none _ _ H). by rewrite decide_True.
Qed.

Lemma missing_some_exact pre entry post :
  exact entry -> (forall e, e ∈ post -> ~ exact e) ->
  exists out,
    run (Missing.missing sequence_a (pre ++ entry :: post))
    = (Ok out, calls sequence_a (pre ++ entry :: post)) /\
    main_of out = Some (Missing.main_info entry 100) /\
    relatives_of out =
      Missing.other_than (Missing.main_info entry 100 !! "national_id"%string)
        (candidates sequence_a (pre ++ entry :: post)).
Proof.
  intros Hx Hpost. rewrite missing_spec. cbn zeta.
  rewrite (last_exact_last _ _ _ _ Hx Hpost).
  rewrite decide_False by apply main_info_non_empty.
  destruct (Missing.other_than _ _) as [|r rs] eqn:E; eexists; eauto.
Qed.

End MissingAnswer.

(** ** The sample data *)

Example sample_similarities :
  entry_similarity Samples.query Samples.same = Some 1%Q /\
  entry_similarity Samples.query Samples.near = Some (224 # 225) /\
  entry_similarity Samples.query Samples.kin = Some (24 # 25) /\
  entry_similarity Samples.query Samples.close = Some (43 # 45) /\
  entry_similarity Samples.query Samples.far = Some (214 # 225) /\
  entry_similarity "ACGT" Samples.other = Some (2 # 3) /\
  entry_similarity Samples.query Samples.bare = None.
Proof. repeat split; vm_compute; reflexivity. Qed.

Example sample_percentages :
  entry_percentage Samples.query Samples.same = Some 100 /\
  entry_percentage Samples.query Samples.near = Some 100 /\
  entry_percentage Samples.query Samples.kin = Some 96 /\
  entry_percentage Samples.query Samples.close = Some 96 /\
  entry_percentage Samples.query Samples.far = Some 95.
Proof. repeat split; vm_compute; reflexivity. Qed.

(** ** The tiers of [/missing] *)

Lemma exact_tier_iff sequence_a entry :
  exact_tier sequence_a entry <->
  exists s, entry_similarity sequence_a entry = Some s /\ percentage s = 100.
Proof.
  unfold exact_tier, entry_percentage, Missing.SIMILARITY_THRESHOLD.
  destruct (entry_similarity sequence_a entry) as [s|]; simpl; split.
  - intros [= E]. by exists s.
  - intros (s' & [= <-] & E). by rewrite E.
  - done.
  - by intros (s' & ? & _).
Qed.

Lemma relative_tier_iff sequence_a entry :
  relative_tier sequence_a entry <->
  exists s, entry_similarity sequence_a entry = Some s /\ 96 <= percentage s.
Proof.
  unfold relative_tier, entry_percentage, Missing.SIMILARITY_THRESHOLD_CHILD.
  destruct (entry_similarity sequence_a entry) as [s|]; simpl; split.
  - intros E. by exists s.
  - by intros (s' & [= <-] & E).
  - done.
  - by intros (s' & ? & _).
Qed.

Lemma exact_is_relative sequence_a entry :
  exact_tier sequence_a entry -> relative_tier sequence_a entry.
Proof.
  rewrite exact_tier_iff, relative_tier_iff.
  intros (s & Hs & E). exists s. split; [done | lia].
Qed.

Lemma main_of_missing sequence_a population :
  exists out,
    run (Missing.missing sequence_a population)
      = (Ok out, calls sequence_a population) /\
    (is_Some (main_of out) <->
     exists entry, entry ∈ population /\ exact_tier sequence_a entry) /\
    (forall main, main_of out = Some main ->
       (exists entry, entry ∈ population /\ exact_tier sequence_a entry /\
                      main = Missing.main_info entry 100) /\
       relatives_of out =
         Missing.other_than (main !! "national_id"%string)
           (candidates sequence_a population)).
Proof.
  destruct (exact_split sequence_a population)
    as [Hnone|(pre & e & post & -> & Hx & Hpost)].
  - exists Missing.NoMatch. split; [by apply missing_no_exact|].
    split; [|done]. split.
    + by intros [? ?].
    + intros (e & He & Hx). by destruct (Hnone e He).
  - destruct (missing_some_exact sequence_a pre e post Hx Hpost)
      as (out & Hrun & Hmain & Hrel).
    exists out. split; [done|].
    assert (e ∈ pre ++ e :: post) as Hin
      by (apply elem_of_app; right; apply list_elem_of_here).
    split.
    + split; [by exists e | by rewrite Hmain].
    + intros main Hm. rewrite Hmain in Hm. injection Hm as <-.
      split; [by exists e | done].
Qed.

Lemma entry_similarity_le_1 sequence_a entry s :
  entry_similarity sequence_a entry = Some s -> (s <= 1)%Q.
Proof.
  unfold entry_similarity.
  destruct (entry !! "DNA_sequence"%string) as [dna|]; [|done].
  apply default_similarity_le_1.
Qed.

(** C1, as the code has it: the Exact test of [/missing] is on the rounded
    percentage.  A record is in the Exact tier if and only if
    [round(similarity * 100)] is 100, that is if and only if its
    similarity is at least 0.995; a main match is reported if and only if
    some record is in that tier, and the main match reported is such a
    record.  So a record of similarity 1.0 is Exact, and one of
    similarity below 0.995 is never reported as the main match. *)
Theorem missing_exact_tier (sequence_a : string)
    (population : list (gmap string string)) :
  (forall entry,
     exact_tier sequence_a entry <->
     exists s, entry_similarity sequence_a entry = Some s /\
               percentage s = 100) /\
  (forall entry s,
     entry_similarity sequence_a entry = Some s ->
     (percentage s = 100 <-> (199 # 200 <= s)%Q)) /\
  exists out,
    fst (run (Missing.missing sequence_a population)) = Ok out /\
    (is_Some (main_of out) <->
     exists entry, entry ∈ population /\ exact_tier sequence_a entry) /\
    (forall main, main_of out = Some main ->
       exists entry, entry ∈ population /\ exact_tier sequence_a entry /\
                     main = Missing.main_info entry 100).
Proof.
  split; [apply exact_tier_iff|]. split.
  - intros entry s Hs. rewrite percentage_100_iff.
    split; [tauto|]. intros H. split; [done|].
    apply Qle_trans with 1%Q; [by apply (entry_similarity_le_1 _ _ _ Hs)|].
    by vm_compute.
  - destruct (main_of_missing sequence_a population) as (out & Hrun & Hiff & Hmain).
    exists out. rewrite Hrun. split; [done|]. split; [done|].
    intros main Hm. by destruct (Hmain main Hm).
Qed.

(** C1 fails as stated: a record with one mismatch in 300 symbols has
    similarity 896/900 < 1.0, rounds to 100 per cent and is reported as
    the main match. *)
Lemma missing_exact_tier_counterexample :
  entry_similarity Samples.query Samples.near = Some (224 # 225) /\
  (224 # 225 < 1)%Q /\
  fst (run (Missing.missing Samples.query [Samples.near]))
  = Ok (Missing.MainAlone (Missing.main_info Samples.near 100)).
Proof. repeat split; vm_compute; reflexivity. Qed.

(** C2, as the code has it: the Relative test of [/missing] is
    [round(similarity * 100) >= 96].  The scan of a record appends it to
    the candidates when its similarity is exactly 0.96, and also when it
    is 0.9599, and whenever it is at least 0.955; below 0.955 it does
    not. *)
Theorem missing_relative_tier_boundary (sequence_a : string)
    (st : Missing.locals) (entry : gmap string string) (s : Q)
    (log : list call) :
  entry_similarity sequence_a entry = Some s ->
  exists st',
    fst (Missing.scan_entry sequence_a st entry log) = Ok st' /\
    ((s == 96 # 100 \/ s == 9599 # 10000 \/ 191 # 200 <= s)%Q ->
     Missing.potential_children_info st' =
     Missing.potential_children_info st
       ++ [Missing.Relative (select_info entry)]) /\
    ((s < 191 # 200)%Q ->
     Missing.potential_children_info st' = Missing.potential_children_info st).
Proof.
  intros Hs. rewrite scan_entry_spec. eexists. split; [reflexivity|].
  cbn [Missing.potential_children_info]. split.
  - intros H. rewrite decide_True; [done|].
    apply relative_tier_iff. exists s. split; [done|].
    apply percentage_ge_96_iff.
    destruct H as [E|[E|H]]; [rewrite E; by vm_compute.. | done].
  - intros H. rewrite decide_False; [by rewrite app_nil_r|].
    rewrite relative_tier_iff. intros (s' & Hs' & Hp).
    rewrite Hs in Hs'. injection Hs' as <-.
    apply percentage_ge_96_iff in Hp. by apply Qlt_not_le in H.
Qed.

Lemma missing_relative_tier_boundary_witness :
  exists st',
    fst (Missing.scan_entry Samples.query (Missing.Locals ∅ []) Samples.kin [])
      = Ok st' /\
    ((24 # 25 == 96 # 100 \/ 24 # 25 == 9599 # 10000 \/ 191 # 200 <= 24 # 25)%Q ->
     Missing.potential_children_info st' =
     [] ++ [Missing.Relative (select_info Samples.kin)]) /\
    ((24 # 25 < 191 # 200)%Q -> Missing.potential_children_info st' = []).
Proof.
  apply (missing_relative_tier_boundary Samples.query (Missing.Locals ∅ [])
           Samples.kin (24 # 25) []).
  vm_compute. reflexivity.
Defined.

(** C2 fails as stated: a similarity of 0.9599 rounds to 96 per cent and
    passes the Relative test; so does the similarity 860/900 < 0.96 of a
    record with 10 mismatches in 300 symbols, which is returned as a
    relative. *)
Lemma missing_relative_tier_counterexample :
  (Missing.SIMILARITY_THRESHOLD_CHILD <=? percentage (9599 # 10000)) = true /\
  entry_similarity Samples.query Samples.close = Some (43 # 45) /\
  (43 # 45 < 96 # 100)%Q /\
  fst (run (Missing.missing Samples.query [Samples.same; Samples.close]))
  = Ok (Missing.MainWithRelatives (Missing.main_info Samples.same 100)
          [Missing.Relative (select_info Samples.close)]).
Proof. repeat split; vm_compute; reflexivity. Qed.

(** C3, as the code has it: the two tests of the loop body are
    independent, and a record that passes the Exact test passes the
    Relative one too and is appended to the candidates.  When a main match
    is reported, the relatives returned are the candidates (the records
    of percentage at least 96, in the order of the population) but those
    that share the [national_id] of the main match, and nothing else is
    removed; the main match reported is thus never among them. *)
Theorem missing_relatives_returned (sequence_a : string)
    (population : list (gmap string string)) :
  (forall entry,
     exact_tier sequence_a entry -> relative_tier sequence_a entry) /\
  exists out,
    fst (run (Missing.missing sequence_a population)) = Ok out /\
    forall main, main_of out = Some main ->
      relatives_of out =
        Missing.other_than (main !! "national_id"%string)
          (candidates sequence_a population) /\
      forall r, r ∈ relatives_of out ->
        Str <$> (Missing.relative_data r !! "national_id"%string)
        <> main !! "national_id"%string.
Proof.
  split; [apply exact_is_relative|].
  destruct (main_of_missing sequence_a population) as (out & Hrun & _ & Hmain).
  exists out. rewrite Hrun. split; [done|].
  intros main Hm. destruct (Hmain main Hm) as [_ Hrel].
  split; [done|]. rewrite Hrel. unfold Missing.other_than.
  intros r Hr. by apply list_elem_of_filter in Hr as [? _].
Qed.

(** C3 fails as stated: of two records with the query's own sequence and
    different [national_id]s, the first has similarity 1.0, passes the
    Exact test, and is returned among the relatives of the second. *)
Lemma missing_relatives_returned_counterexample :
  entry_similarity "ACGT" Samples.twin1 = Some 1%Q /\
  exact_tier "ACGT" Samples.twin1 /\
  fst (run (Missing.missing "ACGT" [Samples.twin1; Samples.twin2]))
  = Ok (Missing.MainWithRelatives (Missing.main_info Samples.twin2 100)
          [Missing.Relative (select_info Samples.twin1)]).
Proof. repeat split; vm_compute; reflexivity. Qed.

(** C6, as the code has it: when no record of the population rounds to
    100 per cent, [/missing] answers "No match found." and reports no
    relative, whatever records pass the Relative test; every record with
    a sequence has been scored. *)
Theorem missing_without_exact_tier (sequence_a : string)
    (population : list (gmap string string)) :
  (forall entry s,
     entry ∈ population -> entry_similarity sequence_a entry = Some s ->
     percentage s <> 100) ->
  run (Missing.missing sequence_a population)
  = (Ok Missing.NoMatch, calls sequence_a population).
Proof.
  intros H. apply missing_no_exact.
  intros entry Hin (s & Hs & Hp)%exact_tier_iff. by apply (H entry s).
Qed.

Lemma missing_without_exact_tier_witness :
  relative_tier Samples.query Samples.kin /\
  run (Missing.missing Samples.query [Samples.kin; Samples.far; Samples.bare])
  = (Ok Missing.NoMatch,
     calls Samples.query [Samples.kin; Samples.far; Samples.bare]).
Proof.
  split; [by vm_compute|].
  apply (missing_without_exact_tier Samples.query
           [Samples.kin; Samples.far; Samples.bare]).
  intros entry s Hin Hs.
  apply elem_of_cons in Hin as [->|Hin];
    [|apply elem_of_cons in Hin as [->|Hin];
      [|apply list_elem_of_singleton in Hin as ->]];
    vm_compute in Hs; injection Hs as <- || discriminate Hs;
    by vm_compute.
Defined.

(** C6 fails as stated: no record of this population has similarity 1.0,
    yet the one at 896/900 is reported as the main match and the one at
    0.96 as its relative. *)
Lemma missing_without_exact_tier_counterexample :
  entry_similarity Samples.query Samples.near = Some (224 # 225) /\
  entry_similarity Samples.query Samples.kin = Some (24 # 25) /\
  (224 # 225 < 1)%Q /\ (24 # 25 < 1)%Q /\
  fst (run (Missing.missing Samples.query [Samples.near; Samples.kin]))
  = Ok (Missing.MainWithRelatives (Missing.main_info Samples.near 100)
          [Missing.Relative (select_info Samples.kin)]).
Proof. repeat split; vm_compute; reflexivity. Qed.

(** C10: the main match of [/missing] is the last record of the
    population that reaches the Exact threshold, whatever records reach
    it before; the scan goes on to the end of the population, scoring
    every record that has a sequence. *)
Theorem missing_last_exact_wins (sequence_a : string)
    (pre : list (gmap string string)) (entry : gmap string string)
    (post : list (gmap string string)) :
  exact_tier sequence_a entry ->
  (forall e, e ∈ post -> ~ exact_tier sequence_a e) ->
  exists out,
    run (Missing.missing sequence_a (pre ++ entry :: post))
    = (Ok out, calls sequence_a (pre ++ entry :: post)) /\
    main_of out = Some (Missing.main_info entry 100).
Proof.
  intros Hx Hpost.
  destruct (missing_some_exact sequence_a pre entry post Hx Hpost)
    as (out & Hrun & Hmain & _).
  by exists out.
Qed.

Lemma missing_last_exact_wins_witness :
  exists out,
    run (Missing.missing "ACGT"
           ([Samples.twin1; Samples.bare] ++ Samples.twin2 :: [Samples.other]))
    = (Ok out,
       [("ACGT", "ACGT"); ("ACGT", "ACGT"); ("ACGT", "ACGA")]%string) /\
    main_of out = Some (Missing.main_info Samples.twin2 100).
Proof.
  apply (missing_last_exact_wins "ACGT" [Samples.twin1; Samples.bare]
           Samples.twin2 [Samples.other]).
  - vm_compute. reflexivity.
  - intros e Hin. apply list_elem_of_singleton in Hin as ->.
    vm_compute. discriminate.
Defined.

(** ** The scan of [/identify] *)

Section IdentifyScan.

Variable sequence_a : string.

Local Abbreviation matches_query := (identical sequence_a).

Lemma scan_without_sequence entry :
  entry !! "DNA_sequence"%string = None ->
  ~ matches_query entry /\ call_of sequence_a entry = None.
Proof.
  intros H. unfold identical, entry_similarity, call_of. rewrite H. simpl. tauto.
Qed.

Lemma scan_with_sequence entry dna log :
  entry !! "DNA_sequence"%string = Some dna ->
  exists s,
    score sequence_a (Py.slice_to 2000 dna) log
      = (Ok s, log ++ [(sequence_a, Py.slice_to 2000 dna)]) /\
    call_of sequence_a entry = Some (sequence_a, Py.slice_to 2000 dna) /\
    (matches_query entry <-> (s == 1)%Q).
Proof.
  intros H.
  destruct (score_ok sequence_a (Py.slice_to 2000 dna) log) as (s & Hs & Hsc).
  exists s. unfold identical, entry_similarity, call_of. rewrite H. simpl.
  by rewrite Hs.
Qed.

Lemma calls_cons entry rest :
  calls sequence_a (entry :: rest)
  = option_list (call_of sequence_a entry) ++ calls sequence_a rest.
Proof. unfold calls. cbn [omap list_omap]. by destruct (call_of _ _). Qed.

(** Without an entry of similarity 1 the scan runs to the end and
    matches nothing. *)
Lemma scan_no_identical : forall filtered_data st log,
  (forall entry, entry ∈ filtered_data -> ~ matches_query entry) ->
  exists pct,
    Identify.scan sequence_a filtered_data st log =
    (Ok (Identify.Locals (Identify.matches st) (Identify.match_info st) pct),
     log ++ calls sequence_a filtered_data).
Proof.
  induction filtered_data as [|entry rest IH]; intros st log Hnone.
  - exists (Identify.similarity_percentage st). destruct st. simpl.
    by rewrite app_nil_r.
  - assert (~ matches_query entry) as Hentry
      by (apply Hnone; apply list_elem_of_here).
    assert (forall e, e ∈ rest -> ~ matches_query e) as Hrest
      by (intros e He; apply Hnone; by apply list_elem_of_further).
    cbn [Identify.scan]. rewrite calls_cons.
    destruct (entry !! "DNA_sequence"%string) as [dna|] eqn:Hdna.
    + destruct (scan_with_sequence entry dna log Hdna) as (s & Hsc & -> & Hid).
      rewrite (bind_ok _ _ _ _ _ Hsc).
      destruct (Qeq_bool s Identify.similarity_threshold) eqn:E.
      { apply Qeq_bool_iff in E. tauto. }
      destruct (IH (Identify.Locals (Identify.matches st)
                      (Identify.match_info st) (Some (percentage s)))
                   (log ++ [(sequence_a, Py.slice_to 2000 dna)]) Hrest)
        as (pct & ->).
      exists pct. cbn [option_list Identify.matches Identify.match_info].
      by rewrite <- app_assoc.
    + destruct (scan_without_sequence entry Hdna) as [_ ->].
      destruct (IH st log Hrest) as (pct & ->). by exists pct.
Qed.

(** The first entry of similarity 1 is matched and ends the scan. *)
Lemma scan_first_identical : forall pre st log entry post,
  matches_query entry -> (forall e, e ∈ pre -> ~ matches_query e) ->
  Identify.scan sequence_a (pre ++ entry :: post) st log =
  (Ok (Identify.Locals (Identify.matches st ++ [select_info entry])
         (Some (select_info entry)) (Some 100)),
   log ++ calls sequence_a (pre ++ [entry])).
Proof.
  induction pre as [|e pre IH]; intros st log entry post Hid Hpre.
  - cbn [app Identify.scan]. rewrite calls_cons.
    destruct (entry !! "DNA_sequence"%string) as [dna|] eqn:Hdna.
    2: { by destruct (scan_without_sequence entry Hdna) as [? _]. }
    destruct (scan_with_sequence entry dna log Hdna) as (s & Hsc & -> & Hs).
    rewrite (bind_ok _ _ _ _ _ Hsc).
    apply Hs in Hid. rewrite (percentage_of_one s Hid).
    apply Qeq_bool_iff in Hid. unfold Identify.similarity_threshold.
    rewrite Hid. reflexivity.
  - assert (~ matches_query e) as He by (apply Hpre; apply list_elem_of_here).
    assert (forall e', e' ∈ pre -> ~ matches_query e') as Hpre'
      by (intros e' He'; apply Hpre; by apply list_elem_of_further).
    cbn [app Identify.scan]. rewrite calls_cons.
    destruct (e !! "DNA_sequence"%string) as [dna|] eqn:Hdna.
    + destruct (scan_with_sequence e dna log Hdna) as (s & Hsc & -> & Hs).
      rewrite (bind_ok _ _ _ _ _ Hsc).
      destruct (Qeq_bool s Identify.similarity_threshold) eqn:E.
      { apply Qeq_bool_iff in E. tauto. }
      rewrite IH by done. cbn [option_list Identify.matches].
      by rewrite <- app_assoc.
    + destruct (scan_without_sequence e Hdna) as [_ ->].
      by rewrite IH.
Qed.

(** Either no entry has similarity 1, or one is the first to have it. *)
Lemma identical_split (filtered_data : list (gmap string string)) :
  (forall entry, entry ∈ filtered_data -> ~ matches_query entry) \/
  exists pre entry post,
    filtered_data = pre ++ entry :: post /\ matches_query entry /\
    (forall e, e ∈ pre -> ~ matches_query e).
Proof.
  induction filtered_data as [|e rest IH].
  - left. intros e He. by apply elem_of_nil in He.
  - destruct (decide (matches_query e)) as [He|He].
    + right. exists [], e, rest. split; [done|]. split; [done|].
      intros e' He'. by apply elem_of_nil in He'.
    + destruct IH as [IH|(pre & x & post & -> & Hx & Hpre)].
      * left. intros e' [->|He']%elem_of_cons; [done | by apply IH].
      * right. exists (e :: pre), x, post. split; [done|]. split; [done|].
        intros e' [->|He']%elem_of_cons; [done | by apply Hpre].
Qed.

End IdentifyScan.

(** ** The answer of [/identify] *)

Lemma identify_no_identical sequence_a population selected_status filtered_data :
  Identify.filter_population population selected_status = Some filtered_data ->
  (forall entry, entry ∈ filtered_data -> ~ identical sequence_a entry) ->
  run (Identify.identify sequence_a population selected_status)
  = (Ok Identify.NoMatches, calls sequence_a filtered_data).
Proof.
  intros Hf Hnone. unfold run, Identify.identify. rewrite Hf.
  destruct (scan_no_identical sequence_a filtered_data
              (Identify.Locals [] None None) [] Hnone) as (pct & Hscan).
  by rewrite (bind_ok _ _ _ _ _ Hscan).
Qed.

Lemma identify_first_identical sequence_a population selected_status
    pre entry post :
  Identify.filter_population population selected_status
    = Some (pre ++ entry :: post) ->
  identical sequence_a entry ->
  (forall e, e ∈ pre -> ~ identical sequence_a e) ->
  run (Identify.identify sequence_a population selected_status)
  = (Ok (Identify.Identification (select_info entry) 100),
     calls sequence_a (pre ++ [entry])).
Proof.
  intros Hf Hid Hpre. unfold run, Identify.identify. rewrite Hf.
  by rewrite (bind_ok _ _ _ _ _
                (scan_first_identical sequence_a pre _ [] entry post Hid Hpre)).
Qed.

Lemma filter_population_None population selected_status :
  Identify.filter_population population selected_status = None <->
  selected_status ∉
    [Some "missing"; Some "acknowledged"; Some "crime"; Some "disaster";
     Some "all"]%string.
Proof.
  unfold Identify.filter_population, Identify.valid_statuses.
  rewrite !not_elem_of_cons.
  destruct (decide (selected_status = Some "all"%string)) as [->|Hall].
  { split; [done | tauto]. }
  destruct selected_status as [status|].
  - destruct (decide (status ∈ _)) as [Hin|Hin].
    + split; [done|]. intros (? & ? & ? & ? & _).
      rewrite !elem_of_cons in Hin.
      destruct Hin as [->|[->|[->|[->|Hin]]]]; try done.
      by apply elem_of_nil in Hin.
    + split; [|done]. intros _. rewrite !not_elem_of_cons in Hin.
      destruct Hin as (? & ? & ? & ? & _).
      repeat split; try congruence. apply not_elem_of_nil.
  - split; [|done]. intros _. repeat split; try done. apply not_elem_of_nil.
Qed.

(** C4: when a record of the filtered population has similarity 1.0,
    [/identify] returns the first such record in the order of the
    population and scores nothing after it; and a record is returned only
    if its similarity equals 1.0. *)
Theorem identify_first_exact_wins (sequence_a : string)
    (population : list (gmap string string)) (selected_status : option string)
    (filtered_data : list (gmap string string)) :
  Identify.filter_population population selected_status = Some filtered_data ->
  (forall pre entry post,
     filtered_data = pre ++ entry :: post ->
     identical sequence_a entry ->
     (forall e, e ∈ pre -> ~ identical sequence_a e) ->
     run (Identify.identify sequence_a population selected_status)
     = (Ok (Identify.Identification (select_info entry) 100),
        calls sequence_a (pre ++ [entry]))) /\
  (forall info pct,
     fst (run (Identify.identify sequence_a population selected_status))
       = Ok (Identify.Identification info pct) ->
     exists entry s,
       entry ∈ filtered_data /\
       entry_similarity sequence_a entry = Some s /\ (s == 1)%Q /\
       info = select_info entry /\ pct = 100).
Proof.
  intros Hf. split.
  - intros pre entry post -> Hid Hpre.
    by apply (identify_first_identical _ _ _ pre entry post).
  - intros info pct.
    destruct (identical_split sequence_a filtered_data)
      as [Hnone|(pre & e & post & -> & Hid & Hpre)].
    + by rewrite (identify_no_identical _ _ _ _ Hf Hnone).
    + rewrite (identify_first_identical _ _ _ _ _ _ Hf Hid Hpre).
      intros [= <- <-]. unfold identical in Hid.
      destruct (entry_similarity sequence_a e) as [s|] eqn:Hs; [|done].
      exists e, s. repeat split; try done.
      apply elem_of_app. right. apply list_elem_of_here.
Qed.

Lemma identify_first_exact_wins_witness :
  run (Identify.identify "ACGT"
         [Samples.other; Samples.bare; Samples.twin1; Samples.twin2]
         (Some "missing"%string))
  = (Ok (Identify.Identification (select_info Samples.twin1) 100),
     [("ACGT", "ACGA"); ("ACGT", "ACGT")]%string).
Proof.
  destruct (identify_first_exact_wins "ACGT"
              [Samples.other; Samples.bare; Samples.twin1; Samples.twin2]
              (Some "missing"%string)
              [Samples.other; Samples.twin1; Samples.twin2]) as [H _].
  - vm_compute. reflexivity.
  - apply (H [Samples.other] Samples.twin1 [Samples.twin2]).
    + reflexivity.
    + by vm_compute.
    + intros e He. apply list_elem_of_singleton in He as ->.
      vm_compute. discriminate.
Defined.

(** C7: [/identify] answers "Invalid status" if and only if the status is
    none of 'missing', 'acknowledged', 'crime', 'disaster' and 'all'; in
    that case the scorer has not been invoked. *)
Theorem identify_invalid_status (sequence_a : string)
    (population : list (gmap string string)) (selected_status : option string) :
  (fst (run (Identify.identify sequence_a population selected_status))
     = Ok Identify.InvalidStatus <->
   selected_status ∉
     [Some "missing"; Some "acknowledged"; Some "crime"; Some "disaster";
      Some "all"]%string) /\
  (fst (run (Identify.identify sequence_a population selected_status))
     = Ok Identify.InvalidStatus ->
   snd (run (Identify.identify sequence_a population selected_status)) = []).
Proof.
  rewrite <- (filter_population_None population).
  destruct (Identify.filter_population population selected_status)
    as [filtered_data|] eqn:Hf.
  - assert (fst (run (Identify.identify sequence_a population selected_status))
            <> Ok Identify.InvalidStatus) as Hne.
    { destruct (identical_split sequence_a filtered_data)
        as [Hnone|(pre & e & post & -> & Hid & Hpre)].
      - by rewrite (identify_no_identical _ _ _ _ Hf Hnone).
      - by rewrite (identify_first_identical _ _ _ _ _ _ Hf Hid Hpre). }
    split; [split|]; done.
  - unfold run, Identify.identify. rewrite Hf. by cbn.
Qed.

Lemma identify_invalid_status_witness :
  fst (run (Identify.identify "ACGT" [Samples.twin1]
              (Some "unknown_status"%string)))
    = Ok Identify.InvalidStatus /\
  snd (run (Identify.identify "ACGT" [Samples.twin1]
              (Some "unknown_status"%string))) = [].
Proof.
  destruct (identify_invalid_status "ACGT" [Samples.twin1]
              (Some "unknown_status"%string)) as [[_ Hinvalid] Hlog].
  assert (Some "unknown_status"%string ∉
            [Some "missing"; Some "acknowledged"; Some "crime";
             Some "disaster"; Some "all"]%string) as Hstatus.
  { intros Hin.
    repeat (apply elem_of_cons in Hin as [Hin|Hin]; [discriminate Hin|]).
    by apply elem_of_nil in Hin. }
  split; [by apply Hinvalid | by apply Hlog, Hinvalid].
Defined.

Example identify_answers :
  run (Identify.identify "ACGT" [Samples.twin1] (Some "unknown_status"%string))
  = (Ok Identify.InvalidStatus, []) /\
  run (Identify.identify "ACGT" [Samples.twin1] None)
  = (Ok Identify.InvalidStatus, []) /\
  run (Identify.identify "ACGT" [Samples.twin1] (Some "missing"%string))
  = (Ok (Identify.Identification (select_info Samples.twin1) 100),
     [("ACGT", "ACGT")]%string) /\
  run (Identify.identify "ACGT" [] (Some "all"%string))
  = (Ok Identify.NoMatches, []).
Proof. repeat split; vm_compute; reflexivity. Qed.

(** * Further properties *)

(** ** Reading an upload *)

Section Uploads.

Local Abbreviation bytes := (list Byte.byte).

Lemma lstrip_suffix (s : bytes) : exists ws, s = ws ++ PyBytes.lstrip s.
Proof.
  induction s as [|b s [ws IH]]; [by exists []|].
  simpl. destruct (PyBytes.is_space b).
  - exists (b :: ws). simpl. by rewrite <- IH.
  - by exists [].
Qed.

Lemma lstrip_spaces (s : bytes) :
  forallb PyBytes.is_space s = true -> PyBytes.lstrip s = [].
Proof.
  induction s as [|b s IH]; [done|]. simpl.
  destruct (PyBytes.is_space b); [apply IH | done].
Qed.

Lemma strip_spaces (s : bytes) :
  forallb PyBytes.is_space s = true -> PyBytes.strip s = [].
Proof.
  intros H. unfold PyBytes.strip, PyBytes.rstrip.
  rewrite (lstrip_spaces s H). reflexivity.
Qed.

(** Stripping keeps a contiguous part of the line. *)
Lemma strip_infix (s : bytes) :
  exists before after, s = before ++ PyBytes.strip s ++ after.
Proof.
  unfold PyBytes.strip, PyBytes.rstrip.
  destruct (lstrip_suffix s) as [before Hb].
  destruct (lstrip_suffix (rev (PyBytes.lstrip s))) as [ws Hws].
  exists before, (rev ws).
  rewrite <- rev_app_distr, <- Hws, rev_involutive. exact Hb.
Qed.

Lemma strip_Forall (P : Byte.byte -> Prop) (s : bytes) :
  Forall P s -> Forall P (PyBytes.strip s).
Proof.
  destruct (strip_infix s) as (before & after & E). intros H.
  rewrite E in H. by apply Forall_app in H as [_ [H _]%Forall_app].
Qed.

Lemma sequence_lines_app (file1 file2 : list bytes) :
  sequence_lines (file1 ++ file2) = sequence_lines file1 ++ sequence_lines file2.
Proof. unfold sequence_lines. by rewrite fmap_app, filter_app. Qed.

Lemma sequence_lines_cons (line : bytes) (file : list bytes) :
  sequence_lines (line :: file) =
  (if PyBytes.startswith (PyBytes.strip line) [Byte.x3e] then []
   else [PyBytes.strip line]) ++ sequence_lines file.
Proof.
  unfold sequence_lines. rewrite fmap_cons, filter_cons.
  destruct (PyBytes.startswith (PyBytes.strip line) [Byte.x3e]) eqn:E.
  - by rewrite decide_False.
  - by rewrite decide_True.
Qed.

(** The loop keeps [total_length = len(data)] and appends what is left of
    the budget from the joined sequence lines. *)
Lemma collect_spec (max_length : Z) : forall (file : list bytes) data,
  collect file max_length data (Z.of_nat (length data)) =
  data ++ take (Z.to_nat (max_length - Z.of_nat (length data)))
               (concat (sequence_lines file)).
Proof.
  induction file as [|line rest IH]; intros data.
  - simpl. by rewrite take_nil, app_nil_r.
  - cbn [collect]. rewrite sequence_lines_cons.
    destruct (PyBytes.startswith (PyBytes.strip line) [Byte.x3e]); [apply IH|].
    cbn [app concat].
    destruct (Z.leb_spec (max_length - Z.of_nat (length data)) 0) as [Hle|Hgt].
    + replace (Z.to_nat (max_length - Z.of_nat (length data))) with 0%nat by lia.
      by rewrite take_0, app_nil_r.
    + set (r := max_length - Z.of_nat (length data)) in *.
      set (l := PyBytes.strip line).
      replace (Z.of_nat (length data) + Z.min (Z.of_nat (length l)) r)
        with (Z.of_nat (length (data ++ PyBytes.slice_to r l))).
      2: { unfold PyBytes.slice_to. rewrite length_app, length_take. lia. }
      rewrite IH. unfold PyBytes.slice_to.
      rewrite <- app_assoc. f_equal. rewrite take_app. f_equal. f_equal.
      rewrite length_app, length_take. lia.
Qed.

End Uploads.

Lemma length_string_of_list_byte (data : list Byte.byte) :
  String.length (string_of_list_byte data) = length data.
Proof.
  unfold string_of_list_byte.
  induction data as [|b data IH]; simpl; congruence.
Qed.

Lemma decode_Some (data : list Byte.byte) (s : string) :
  PyBytes.decode data = Some s ->
  list_byte_of_string s = data /\ String.length s = length data.
Proof.
  unfold PyBytes.decode. destruct (forallb _ _); [|done]. intros [= <-].
  by rewrite list_byte_of_string_of_list_byte, length_string_of_list_byte.
Qed.

Lemma retrieve_spec (file : list (list Byte.byte)) (max_length : Z) :
  retrieve_dna_sequence_from_file file max_length =
  PyBytes.decode (take (Z.to_nat max_length) (concat (sequence_lines file))).
Proof.
  unfold retrieve_dna_sequence_from_file.
  change 0 with (Z.of_nat (length (@nil Byte.byte))).
  rewrite collect_spec. simpl. by rewrite Z.sub_0_r.
Qed.

(** X1: the sequence read from an upload is the decoding of the first
    [max_length] bytes of its sequence lines joined: the lines stripped
    of surrounding white space, without those that start with [>]. *)
Theorem retrieved_sequence (file : list (list Byte.byte)) (max_length : Z) :
  retrieve_dna_sequence_from_file file max_length =
  PyBytes.decode (take (Z.to_nat max_length) (concat (sequence_lines file))).
Proof. apply retrieve_spec. Qed.

Example retrieved_sample :
  retrieve_dna_sequence_from_file Uploads.fasta 2000 = Some "ACGTGGCCTTAA"%string /\
  retrieve_dna_sequence_from_file Uploads.fasta 6 = Some "ACGTGG"%string /\
  retrieve_dna_sequence_from_file Uploads.fasta 0 = Some ""%string /\
  retrieve_dna_sequence_from_file Uploads.fasta (-3) = Some ""%string /\
  retrieve_dna_sequence_from_file [] 2000 = Some ""%string.
Proof. repeat split; vm_compute; reflexivity. Qed.

(** X2: a sequence read from an upload has at most [max_length] symbols,
    and none when [max_length] is not positive. *)
Theorem retrieved_length (file : list (list Byte.byte)) (max_length : Z)
    (s : string) :
  retrieve_dna_sequence_from_file file max_length = Some s ->
  Z.of_nat (String.length s) <= Z.max 0 max_length.
Proof.
  rewrite retrieve_spec. intros [_ ->]%decode_Some.
  rewrite length_take. lia.
Qed.

Lemma retrieved_length_witness :
  Z.of_nat (String.length "ACGTGG") <= Z.max 0 6.
Proof.
  apply (retrieved_length Uploads.fasta 6 "ACGTGG"). vm_compute. reflexivity.
Defined.

Lemma sequence_lines_ignored (line : list Byte.byte) :
  ignored_line line -> sequence_lines [line] = [] \/ sequence_lines [line] = [[]].
Proof.
  intros [H|H]; rewrite sequence_lines_cons.
  - left. by rewrite H.
  - right. rewrite (strip_spaces line H). reflexivity.
Qed.

(** X3: header lines and lines of white space only do not count: one more
    of them, anywhere in the upload, leaves the sequence read as it is. *)
Theorem retrieved_ignores_headers (file1 file2 : list (list Byte.byte))
    (line : list Byte.byte) (max_length : Z) :
  ignored_line line ->
  retrieve_dna_sequence_from_file (file1 ++ line :: file2) max_length =
  retrieve_dna_sequence_from_file (file1 ++ file2) max_length.
Proof.
  intros H. rewrite !retrieve_spec. do 2 f_equal.
  change (line :: file2) with ([line] ++ file2).
  rewrite !sequence_lines_app, !concat_app.
  by destruct (sequence_lines_ignored line H) as [-> | ->].
Qed.

Lemma retrieved_ignores_headers_witness :
  retrieve_dna_sequence_from_file
    (Uploads.plain ++ Uploads.lines [" >comment"%string] ++ Uploads.acga) 2000 =
  retrieve_dna_sequence_from_file (Uploads.plain ++ Uploads.acga) 2000.
Proof.
  apply (retrieved_ignores_headers Uploads.plain Uploads.acga
           (list_byte_of_string " >comment") 2000).
  left. vm_compute. reflexivity.
Defined.

(** X4: once [max_length] symbols have been read the rest of the upload
    does not matter, whatever it holds. *)
Theorem retrieved_is_capped (file1 file2 : list (list Byte.byte))
    (max_length : Z) (s : string) :
  retrieve_dna_sequence_from_file file1 max_length = Some s ->
  Z.of_nat (String.length s) = max_length ->
  retrieve_dna_sequence_from_file (file1 ++ file2) max_length = Some s.
Proof.
  rewrite !retrieve_spec. intros Hs Hlen. rewrite <- Hs. f_equal.
  rewrite sequence_lines_app, concat_app.
  apply decode_Some in Hs as [_ Hl]. rewrite length_take in Hl.
  apply take_app_le. lia.
Qed.

Lemma retrieved_is_capped_witness :
  retrieve_dna_sequence_from_file
    (Uploads.fasta ++ [[Byte.xff; Byte.xfe]]) 6 = Some "ACGTGG"%string.
Proof.
  apply (retrieved_is_capped Uploads.fasta [[Byte.xff; Byte.xfe]] 6 "ACGTGG").
  - vm_compute. reflexivity.
  - reflexivity.
Defined.

(** X5: an upload of ASCII bytes always yields a sequence, and encoding
    the sequence gives back the bytes that were read. *)
Theorem retrieved_of_ascii (file : list (list Byte.byte)) (max_length : Z) :
  Forall (Forall (fun b => PyBytes.is_ascii b = true)) file ->
  exists s,
    retrieve_dna_sequence_from_file file max_length = Some s /\
    list_byte_of_string s =
      take (Z.to_nat max_length) (concat (sequence_lines file)).
Proof.
  intros Hfile. rewrite retrieve_spec.
  set (data := take _ _).
  assert (Forall (fun b => PyBytes.is_ascii b = true) data) as Hdata.
  { apply Forall_take, Forall_concat. unfold sequence_lines.
    apply Forall_forall. intros line [_ Hline]%list_elem_of_filter.
    apply list_elem_of_fmap in Hline as (line' & -> & Hline').
    apply strip_Forall. by apply (proj1 (Forall_forall _ _) Hfile). }
  exists (string_of_list_byte data). unfold PyBytes.decode.
  rewrite (proj2 (forallb_forall _ _)).
  - by rewrite list_byte_of_string_of_list_byte.
  - intros b Hb. by apply (proj1 (Forall_forall _ _) Hdata), list_elem_of_In.
Qed.

Lemma retrieved_of_ascii_witness :
  exists s,
    retrieve_dna_sequence_from_file Uploads.acgt 2000 = Some s /\
    list_byte_of_string s =
      take (Z.to_nat 2000) (concat (sequence_lines Uploads.acgt)).
Proof.
  apply (retrieved_of_ascii Uploads.acgt 2000).
  unfold Uploads.acgt, Uploads.lines. simpl. repeat constructor.
Defined.

(** ** More on the scorer *)


Lemma percentage_le_100 (s : Q) : (s <= 1)%Q -> percentage s <= 100.
Proof.
  destruct s as [n d]. unfold Qle. simpl. intros Hs.
  destruct (percentage_unfold n d) as (q & r & Hn & Hr & ->).
  destruct (Z.compare_spec (2 * r) (Z.pos d)) as [E|E|E].
  - destruct (Z.even q) eqn:Hq; [nia|].
    assert (q <= 99 \/ q = 100) as [?| ->] by nia; [lia | discriminate].
  - nia.
  - nia.
Qed.

(** X7: with the default parameters a similarity never exceeds 1.0, and
    its rounded percentage never exceeds 100. *)
Theorem similarity_at_most_one (seq1 seq2 : string) (s : Q) :
  needleman_wunsch_similarity seq1 seq2 3 (-1) (-2) = Some s ->
  (s <= 1)%Q /\ percentage s <= 100.
Proof.
  intros Hs. apply default_similarity_le_1 in Hs.
  split; [done | by apply percentage_le_100].
Qed.

Lemma similarity_at_most_one_witness :
  (2 # 3 <= 1)%Q /\ percentage (2 # 3) <= 100.
Proof.
  apply (similarity_at_most_one "ACGT" "ACGA" (2 # 3)). vm_compute. reflexivity.
Defined.

Lemma similarity_self (A : string) :
  String.length A <> 0%nat ->
  needleman_wunsch_similarity A A 3 (-1) (-2) = Some 1%Q.
Proof.
  intros HA. unfold needleman_wunsch_similarity, globalms.
  rewrite <- (length_list_ascii_of_string A) in *.
  destruct (list_ascii_of_string A) as [|a s] eqn:E; [done|].
  rewrite M_diagonal by (simpl; lia).
  rewrite Nat.max_id, Z.mul_comm.
  apply truediv_self. simpl. lia.
Qed.

(** A full score on the diagonal needs equal prefixes. *)
Lemma M_diagonal_full seq1 seq2 : forall i,
  (i <= length seq1)%nat -> (i <= length seq2)%nat ->
  M 3 (-1) (-2) seq1 seq2 i i = 3 * Z.of_nat i ->
  take i seq1 = take i seq2.
Proof.
  induction i as [|i IH]; intros H1 H2 Hfull; [done|].
  rewrite (M_rec _ _ _ seq1 seq2 i i "000"%char) in Hfull by lia.
  destruct (M_upper 3 (-1) (-2) ltac:(lia) ltac:(lia) ltac:(lia)
              seq1 seq2 i i) as [Hd _]; [lia..|].
  destruct (M_upper 3 (-1) (-2) ltac:(lia) ltac:(lia) ltac:(lia)
              seq1 seq2 i (S i)) as [Hu _]; [lia..|].
  destruct (M_upper 3 (-1) (-2) ltac:(lia) ltac:(lia) ltac:(lia)
              seq1 seq2 (S i) i) as [_ Hl]; [lia..|].
  unfold substitution in Hfull.
  destruct (Ascii.eqb_spec (nth i seq1 "000"%char) (nth i seq2 "000"%char))
    as [Hsym|Hsym]; [|lia].
  destruct (lookup_lt_is_Some_2 seq1 i ltac:(lia)) as [a Ha].
  destruct (lookup_lt_is_Some_2 seq2 i ltac:(lia)) as [b Hb].
  rewrite (nth_lookup_Some _ _ _ _ Ha), (nth_lookup_Some _ _ _ _ Hb) in Hsym.
  rewrite (take_S_r _ _ _ Ha), (take_S_r _ _ _ Hb), IH by lia.
  by rewrite Hsym.
Qed.

Lemma truediv_one a b s :
  0 < b -> Py.truediv a b = Some s -> (s == 1)%Q -> a = b.
Proof.
  intros Hb. unfold Py.truediv.
  destruct (Z.eqb_spec b 0) as [|_]; [lia|]. intros [= <-].
  rewrite Qred_correct. destruct b as [|p|p]; try lia.
  unfold Qeq, Qdiv, Qmult, Qinv, inject_Z. simpl. lia.
Qed.

Lemma similarity_one_iff (seq1 seq2 : string) :
  (exists s, needleman_wunsch_similarity seq1 seq2 3 (-1) (-2) = Some s /\
             (s == 1)%Q) <->
  seq1 = seq2 /\ seq1 <> ""%string.
Proof.
  split.
  - intros (s & Hs & H1). revert Hs.
    unfold needleman_wunsch_similarity, globalms.
    rewrite <- !length_list_ascii_of_string.
    destruct (list_ascii_of_string seq1) as [|a s1] eqn:E1.
    { intros [= <-]. by vm_compute in H1. }
    destruct (list_ascii_of_string seq2) as [|b s2] eqn:E2.
    { intros [= <-]. by vm_compute in H1. }
    intros Hdiv. apply truediv_one in Hdiv; [|simpl; lia | done].
    destruct (M_upper 3 (-1) (-2) ltac:(lia) ltac:(lia) ltac:(lia)
                (a :: s1) (b :: s2) (length (a :: s1)) (length (b :: s2)))
      as [Hu1 Hu2]; [lia..|].
    assert (length (a :: s1) = length (b :: s2)) as Hlen by lia.
    rewrite <- Hlen, Nat.max_id, Z.mul_comm in Hdiv.
    apply M_diagonal_full in Hdiv; [|lia..].
    rewrite take_ge in Hdiv by lia.
    rewrite Hlen, take_ge in Hdiv by lia.
    split.
    + rewrite <- (string_of_list_ascii_of_string seq1),
        <- (string_of_list_ascii_of_string seq2). congruence.
    + intros ->. discriminate E1.
  - intros [<- Hne]. exists 1%Q. split; [|done].
    apply similarity_self. by destruct seq1.
Qed.

(** X8: with the default parameters the similarity of two sequences is
    1.0 if and only if they are the same non-empty sequence. *)
Theorem similarity_one_iff_equal (seq1 seq2 : string) :
  (exists s, needleman_wunsch_similarity seq1 seq2 3 (-1) (-2) = Some s /\
             (s == 1)%Q) <->
  seq1 = seq2 /\ seq1 <> ""%string.
Proof. apply similarity_one_iff. Qed.

(** ** More on the two scans *)

Lemma identify_cases sequence_a population selected_status :
  fst (run (Identify.identify sequence_a population selected_status))
    = Ok Identify.InvalidStatus /\
  Identify.filter_population population selected_status = None \/
  exists filtered_data,
    Identify.filter_population population selected_status = Some filtered_data /\
    (run (Identify.identify sequence_a population selected_status)
       = (Ok Identify.NoMatches, calls sequence_a filtered_data) /\
     (forall entry, entry ∈ filtered_data -> ~ identical sequence_a entry) \/
     exists pre entry post,
       filtered_data = pre ++ entry :: post /\
       identical sequence_a entry /\
       (forall e, e ∈ pre -> ~ identical sequence_a e) /\
       run (Identify.identify sequence_a population selected_status)
       = (Ok (Identify.Identification (select_info entry) 100),
          calls sequence_a (pre ++ [entry]))).
Proof.
  destruct (Identify.filter_population population selected_status)
    as [filtered_data|] eqn:Hf.
  - right. exists filtered_data. split; [done|].
    destruct (identical_split sequence_a filtered_data)
      as [Hnone|(pre & e & post & -> & Hid & Hpre)].
    + left. split; [|done]. by apply identify_no_identical.
    + right. exists pre, e, post. repeat split; try done.
      by apply (identify_first_identical _ _ _ pre e post).
  - left. split; [|done]. unfold run, Identify.identify. by rewrite Hf.
Qed.

(** X9: neither scan raises: the division of the scorer does not fail on
    the default parameters, and [/identify] builds its answer from
    [match_info] and [similarity_percentage] only when the loop has
    assigned them. *)
Theorem scans_never_raise (sequence_a : string)
    (population : list (gmap string string)) (selected_status : option string) :
  (exists r,
     fst (run (Identify.identify sequence_a population selected_status)) = Ok r) /\
  (exists r, fst (run (Missing.missing sequence_a population)) = Ok r).
Proof.
  split.
  - destruct (identify_cases sequence_a population selected_status)
      as [[H _]|(filtered & _ & [[H _]|(pre & e & post & _ & _ & _ & H)])];
      eexists; try exact H; by rewrite H.
  - rewrite missing_spec. by eexists.
Qed.

Lemma identical_iff sequence_a entry :
  identical sequence_a entry <->
  sequence_a <> ""%string /\
  exists dna, entry !! "DNA_sequence"%string = Some dna /\
              Py.slice_to 2000 dna = sequence_a.
Proof.
  unfold identical, entry_similarity.
  destruct (entry !! "DNA_sequence"%string) as [dna|]; simpl.
  - destruct (needleman_wunsch_similarity sequence_a (Py.slice_to 2000 dna)
                3 (-1) (-2)) as [s|] eqn:Hs.
    + split.
      * intros H1.
        destruct (proj1 (similarity_one_iff sequence_a (Py.slice_to 2000 dna)))
          as [E Hne]; [by exists s|]. split; [done|]. by exists dna.
      * intros (Hne & dna' & [= <-] & E).
        destruct (proj2 (similarity_one_iff sequence_a (Py.slice_to 2000 dna)))
          as (s' & Hs' & H1); [done|]. congruence.
    + split; [done|]. intros (Hne & dna' & [= <-] & E).
      destruct (default_similarity_total sequence_a (Py.slice_to 2000 dna))
        as [s Hs']. congruence.
  - split; [done|]. by intros (_ & dna & ? & _).
Qed.

(** X10: [/identify] finds a record exactly when the first 2000 symbols
    of its sequence are the query itself, the query being non-empty: it
    answers with the first such record of the filtered population, and
    with no other. *)
Theorem identify_finds_equal_sequences (sequence_a : string)
    (population : list (gmap string string)) (selected_status : option string)
    (filtered_data : list (gmap string string)) :
  Identify.filter_population population selected_status = Some filtered_data ->
  (forall pre entry post dna,
     filtered_data = pre ++ entry :: post ->
     sequence_a <> ""%string ->
     entry !! "DNA_sequence"%string = Some dna ->
     Py.slice_to 2000 dna = sequence_a ->
     (forall e d, e ∈ pre -> e !! "DNA_sequence"%string = Some d ->
                  Py.slice_to 2000 d <> sequence_a) ->
     fst (run (Identify.identify sequence_a population selected_status))
     = Ok (Identify.Identification (select_info entry) 100)) /\
  (forall info pct,
     fst (run (Identify.identify sequence_a population selected_status))
       = Ok (Identify.Identification info pct) ->
     sequence_a <> ""%string /\
     exists entry dna,
       entry ∈ filtered_data /\
       entry !! "DNA_sequence"%string = Some dna /\
       Py.slice_to 2000 dna = sequence_a /\ info = select_info entry).
Proof.
  intros Hf. split.
  - intros pre entry post dna -> Hne Hdna Heq Hpre.
    rewrite (identify_first_identical _ _ _ pre entry post Hf); [done| |].
    + apply identical_iff. split; [done|]. by exists dna.
    + intros e He (_ & d & Hd & E)%identical_iff. by apply (Hpre e d).
  - intros info pct.
    destruct (identify_cases sequence_a population selected_status)
      as [[_ H]|(filtered & Hf' & [[H _]|(pre & e & post & -> & Hid & _ & H)])].
    + congruence.
    + by rewrite H.
    + rewrite H. intros [= <- <-].
      apply identical_iff in Hid as (Hne & dna & Hdna & E).
      split; [done|]. exists e, dna. repeat split; try done.
      assert (filtered_data = pre ++ e :: post) as -> by congruence.
      apply elem_of_app. right. apply list_elem_of_here.
Qed.

Lemma identify_finds_equal_sequences_witness :
  fst (run (Identify.identify "ACGT"
              [Samples.other; Samples.twin1; Samples.twin2] (Some "all"%string)))
  = Ok (Identify.Identification (select_info Samples.twin1) 100).
Proof.
  destruct (identify_finds_equal_sequences "ACGT"
              [Samples.other; Samples.twin1; Samples.twin2] (Some "all"%string)
              [Samples.other; Samples.twin1; Samples.twin2] eq_refl) as [H _].
  apply (H [Samples.other] Samples.twin1 [Samples.twin2] "ACGT"%string).
  - reflexivity.
  - discriminate.
  - vm_compute. reflexivity.
  - vm_compute. reflexivity.
  - intros e d He Hd. apply list_elem_of_singleton in He as ->.
    vm_compute in Hd. injection Hd as <-. vm_compute. discriminate.
Defined.

Lemma lookup_select_info entry key value :
  select_info entry !! key = Some value <->
  key ∈ info_keys /\ entry !! key = Some value.
Proof.
  unfold select_info. rewrite lookup_select.
  destruct (decide (key ∈ info_keys)); [tauto|].
  split; [done | tauto].
Qed.

Lemma filter_population_subset population selected_status filtered_data entry :
  Identify.filter_population population selected_status = Some filtered_data ->
  entry ∈ filtered_data ->
  entry ∈ population /\
  (selected_status <> Some "all"%string ->
   entry !! "status"%string = selected_status).
Proof.
  unfold Identify.filter_population.
  destruct (decide (selected_status = Some "all"%string)) as [->|Hall].
  { intros [= <-] Hin. by split. }
  destruct selected_status as [status|]; [|done].
  destruct (decide (status ∈ _)); [|done].
  intros [= <-] [Hst Hin]%list_elem_of_filter. by split.
Qed.

(** X11: the record that [/identify] returns is a record of the
    population, given by its fields among the eleven info keys and by
    nothing else, so never with its sequence; under a status filter other
    than 'all' its status is the one asked for. *)
Theorem identify_returns_selected_fields (sequence_a : string)
    (population : list (gmap string string)) (selected_status : option string)
    (info : gmap string string) (pct : Z) :
  fst (run (Identify.identify sequence_a population selected_status))
    = Ok (Identify.Identification info pct) ->
  exists entry,
    entry ∈ population /\
    (forall key value,
       info !! key = Some value <->
       key ∈ info_keys /\ entry !! key = Some value) /\
    info !! "DNA_sequence"%string = None /\
    (selected_status <> Some "all"%string ->
     info !! "status"%string = selected_status).
Proof.
  destruct (identify_cases sequence_a population selected_status)
    as [[_ H]|(filtered & Hf & [[H _]|(pre & e & post & -> & _ & _ & H)])].
  - unfold run, Identify.identify. by rewrite H.
  - by rewrite H.
  - rewrite H. intros [= <- _].
    destruct (filter_population_subset _ _ _ e Hf) as [Hin Hst].
    { apply elem_of_app. right. apply list_elem_of_here. }
    exists e. split; [done|]. split; [apply lookup_select_info|]. split.
    + destruct (select_info e !! "DNA_sequence"%string) as [v|] eqn:E; [|done].
      apply lookup_select_info in E as [Hkey _]. unfold info_keys in Hkey.
      repeat (apply elem_of_cons in Hkey as [Hkey|Hkey]; [discriminate Hkey|]).
      by apply elem_of_nil in Hkey.
    + intros Hall. rewrite <- (Hst Hall).
      destruct (e !! "status"%string) as [v|] eqn:E.
      * apply lookup_select_info. split; [|done].
        unfold info_keys. rewrite !elem_of_cons. tauto.
      * destruct (select_info e !! "status"%string) as [v|] eqn:E'; [|done].
        apply lookup_select_info in E' as [_ E']. congruence.
Qed.

Lemma identify_returns_selected_fields_witness :
  exists entry,
    entry ∈ [Samples.other; Samples.twin1] /\
    (forall key value,
       select_info Samples.twin1 !! key = Some value <->
       key ∈ info_keys /\ entry !! key = Some value) /\
    select_info Samples.twin1 !! "DNA_sequence"%string = None /\
    (Some "missing"%string <> Some "all"%string ->
     select_info Samples.twin1 !! "status"%string = Some "missing"%string).
Proof.
  apply (identify_returns_selected_fields "ACGT"
           [Samples.other; Samples.twin1] (Some "missing"%string)
           (select_info Samples.twin1) 100).
  vm_compute. reflexivity.
Defined.

(** X13: a population in which no record carries a sequence, the empty
    one among them, gives no match in either scan, and the scorer is not
    invoked. *)
Theorem no_sequence_no_match (sequence_a : string)
    (population : list (gmap string string)) :
  (forall entry, entry ∈ population ->
                 entry !! "DNA_sequence"%string = None) ->
  run (Missing.missing sequence_a population) = (Ok Missing.NoMatch, []) /\
  forall selected_status filtered_data,
    Identify.filter_population population selected_status = Some filtered_data ->
    run (Identify.identify sequence_a population selected_status)
    = (Ok Identify.NoMatches, []).
Proof.
  intros Hnone.
  assert (forall l : list (gmap string string),
            (forall entry, entry ∈ l -> entry ∈ population) ->
            calls sequence_a l = []) as Hcalls.
  { induction l as [|e l IH]; intros Hl; [done|].
    rewrite calls_cons. unfold call_of at 1.
    rewrite (Hnone e) by (apply Hl, list_elem_of_here). simpl.
    apply IH. intros e' He'. by apply Hl, list_elem_of_further. }
  split.
  - rewrite missing_no_exact; [by rewrite Hcalls|].
    intros e He. unfold exact_tier, entry_percentage, entry_similarity.
    by rewrite (Hnone e He).
  - intros selected_status filtered_data Hf.
    rewrite (identify_no_identical _ _ _ filtered_data Hf).
    + rewrite Hcalls; [done|]. intros e He.
      by destruct (filter_population_subset _ _ _ e Hf He).
    + intros e He. unfold identical, entry_similarity.
      destruct (filter_population_subset _ _ _ e Hf He) as [Hin _].
      rewrite (Hnone e Hin). simpl. tauto.
Qed.

Lemma no_sequence_no_match_witness :
  run (Missing.missing "ACGT" [Samples.bare; Samples.bare])
    = (Ok Missing.NoMatch, []) /\
  forall selected_status filtered_data,
    Identify.filter_population [Samples.bare; Samples.bare] selected_status
      = Some filtered_data ->
    run (Identify.identify "ACGT" [Samples.bare; Samples.bare] selected_status)
    = (Ok Identify.NoMatches, []).
Proof.
  apply (no_sequence_no_match "ACGT" [Samples.bare; Samples.bare]).
  intros entry He.
  apply elem_of_cons in He as [->|He]; [reflexivity|].
  apply list_elem_of_singleton in He as ->. reflexivity.
Defined.

(** X14: whatever [/identify] finds, [/missing] finds too: when
    [/identify] returns a record of a population, under any status
    filter, [/missing] reports a main match for the same query and
    population. *)
Theorem identified_is_found_missing (sequence_a : string)
    (population : list (gmap string string)) (selected_status : option string)
    (info : gmap string string) (pct : Z) :
  fst (run (Identify.identify sequence_a population selected_status))
    = Ok (Identify.Identification info pct) ->
  exists out main,
    fst (run (Missing.missing sequence_a population)) = Ok out /\
    main_of out = Some main.
Proof.
  destruct (identify_cases sequence_a population selected_status)
    as [[_ H]|(filtered & Hf & [[H _]|(pre & e & post & -> & Hid & _ & H)])].
  - unfold run, Identify.identify. by rewrite H.
  - by rewrite H.
  - intros _.
    destruct (filter_population_subset _ _ _ e Hf) as [Hin _].
    { apply elem_of_app. right. apply list_elem_of_here. }
    destruct (main_of_missing sequence_a population) as (out & Hrun & Hiff & _).
    destruct (proj2 Hiff) as [main Hmain].
    + exists e. split; [done|]. apply exact_tier_iff.
      unfold identical in Hid.
      destruct (entry_similarity sequence_a e) as [s|]; [|done].
      exists s. split; [done | by apply percentage_of_one].
    + exists out, main. by rewrite Hrun.
Qed.

Lemma identified_is_found_missing_witness :
  exists out main,
    fst (run (Missing.missing "ACGT" [Samples.other; Samples.twin1])) = Ok out /\
    main_of out = Some main.
Proof.
  apply (identified_is_found_missing "ACGT" [Samples.other; Samples.twin1]
           (Some "missing"%string) (select_info Samples.twin1) 100).
  vm_compute. reflexivity.
Defined.

Lemma slice_to_idempotent (n : nat) (s : string) :
  Py.slice_to n (Py.slice_to n s) = Py.slice_to n s.
Proof.
  unfold Py.slice_to. revert s.
  induction n as [|n IH]; intros [|c s]; try reflexivity.
  cbn [substring]. by rewrite IH.
Qed.

Lemma lookup_truncated entry key :
  truncated entry !! key =
  if decide (key = "DNA_sequence"%string)
  then Py.slice_to 2000 <$> entry !! key else entry !! key.
Proof.
  unfold truncated. destruct (decide (key = _)) as [->|Hne].
  - apply lookup_alter_eq.
  - by apply lookup_alter_ne.
Qed.

Lemma select_info_truncated entry : select_info (truncated entry) = select_info entry.
Proof.
  apply map_eq. intros key.
  unfold select_info. rewrite !lookup_select.
  destruct (decide (key ∈ info_keys)) as [Hkey|]; [|done].
  rewrite lookup_truncated. rewrite decide_False; [done|].
  intros ->. unfold info_keys in Hkey.
  repeat (apply elem_of_cons in Hkey as [Hkey|Hkey]; [discriminate Hkey|]).
  by apply elem_of_nil in Hkey.
Qed.

Lemma missing_scan_truncated sequence_a : forall population st log,
  Missing.scan sequence_a (truncated <$> population) st log
  = Missing.scan sequence_a population st log.
Proof.
  induction population as [|entry rest IH]; intros st log; [done|].
  rewrite fmap_cons. cbn [Missing.scan].
  assert (Missing.scan_entry sequence_a st (truncated entry)
          = Missing.scan_entry sequence_a st entry) as ->.
  { unfold Missing.scan_entry, Missing.main_info.
    rewrite lookup_truncated, decide_True, select_info_truncated by done.
    destruct (entry !! "DNA_sequence"%string) as [dna|]; [|done].
    cbn [fmap option_fmap option_map]. by rewrite slice_to_idempotent. }
  unfold mbind, eng_bind.
  destruct (Missing.scan_entry sequence_a st entry log) as [[st'|e] log'];
    [apply IH | done].
Qed.

Lemma identify_scan_truncated sequence_a : forall filtered_data st log,
  Identify.scan sequence_a (truncated <$> filtered_data) st log
  = Identify.scan sequence_a filtered_data st log.
Proof.
  induction filtered_data as [|entry rest IH]; intros st log; [done|].
  rewrite fmap_cons. cbn [Identify.scan].
  rewrite lookup_truncated, decide_True, select_info_truncated by done.
  destruct (entry !! "DNA_sequence"%string) as [dna|]; [|apply IH].
  cbn [fmap option_fmap option_map]. rewrite slice_to_idempotent.
  unfold mbind, eng_bind.
  destruct (score sequence_a (Py.slice_to 2000 dna) log) as [[s|e] log'];
    [|done].
  destruct (Qeq_bool s Identify.similarity_threshold);
    [destruct (percentage s =? 100)|]; try done; apply IH.
Qed.

Lemma filter_population_truncated (population : list (gmap string string))
    selected_status :
  Identify.filter_population (truncated <$> population) selected_status
  = (fun filtered_data : list (gmap string string) =>
       truncated <$> filtered_data)
      <$> Identify.filter_population population selected_status.
Proof.
  unfold Identify.filter_population.
  destruct (decide (selected_status = Some "all"%string)); [done|].
  destruct selected_status as [status|]; [|done].
  destruct (decide (status ∈ _)); [|done].
  cbn [fmap option_fmap option_map]. f_equal.
  induction population as [|entry rest IH]; [done|].
  rewrite fmap_cons, !filter_cons, lookup_truncated.
  rewrite (decide_False (P := "status"%string = "DNA_sequence"%string)) by done.
  destruct (decide (entry !! "status"%string = Some status));
    [rewrite fmap_cons|]; by rewrite IH.
Qed.

(** X12: only the first 2000 symbols of a record's sequence count:
    cutting the sequences of the population to 2000 symbols changes
    neither the answer of a scan nor what it passes to the scorer. *)
Theorem scans_read_2000_symbols (sequence_a : string)
    (population : list (gmap string string)) :
  run (Missing.missing sequence_a (truncated <$> population))
  = run (Missing.missing sequence_a population) /\
  forall selected_status,
    run (Identify.identify sequence_a (truncated <$> population) selected_status)
    = run (Identify.identify sequence_a population selected_status).
Proof.
  split.
  - unfold run, Missing.missing, mbind, eng_bind.
    by rewrite missing_scan_truncated.
  - intros selected_status. unfold run, Identify.identify.
    rewrite filter_population_truncated.
    destruct (Identify.filter_population population selected_status)
      as [filtered_data|]; [|done].
    cbn [fmap option_fmap option_map]. unfold mbind, eng_bind.
    by rewrite identify_scan_truncated.
Qed.

Lemma info_keys_other key :
  key ∈ info_keys ->
  key <> "match_status"%string /\ key <> "similarity_percentage"%string /\
  key <> "DNA_sequence"%string.
Proof.
  unfold info_keys. intros Hkey.
  repeat (apply elem_of_cons in Hkey as [->|Hkey]; [done|]).
  by apply elem_of_nil in Hkey.
Qed.

Lemma lookup_main_info entry pct key :
  Missing.main_info entry pct !! key =
  if decide (key = "match_status"%string) then Some (Str "DNA MATCH")
  else if decide (key = "similarity_percentage"%string) then Some (Int pct)
  else if decide (key ∈ info_keys) then Str <$> entry !! key
  else None.
Proof.
  unfold Missing.main_info.
  destruct (decide (key = "match_status"%string)) as [->|H1].
  { by rewrite lookup_insert_eq. }
  rewrite lookup_insert_ne by done.
  destruct (decide (key = "similarity_percentage"%string)) as [->|H2].
  { by rewrite lookup_insert_eq. }
  rewrite lookup_insert_ne by done.
  rewrite lookup_fmap. unfold select_info. rewrite lookup_select.
  by destruct (decide (key ∈ info_keys)).
Qed.

(** X15: the main match of [/missing] is a record of the population that
    rounds to 100 per cent, given by its fields among the eleven info
    keys, with [similarity_percentage] 100 and [match_status]
    "DNA MATCH", and by nothing else, so never with its sequence. *)
Theorem missing_main_match_fields (sequence_a : string)
    (population : list (gmap string string)) (out : Missing.response)
    (main : gmap string value) :
  fst (run (Missing.missing sequence_a population)) = Ok out ->
  main_of out = Some main ->
  exists entry,
    entry ∈ population /\
    entry_percentage sequence_a entry = Some 100 /\
    main !! "similarity_percentage"%string = Some (Int 100) /\
    main !! "match_status"%string = Some (Str "DNA MATCH") /\
    main !! "DNA_sequence"%string = None /\
    forall key, key ∈ info_keys -> main !! key = Str <$> entry !! key.
Proof.
  destruct (main_of_missing sequence_a population) as (out' & Hrun & _ & Hmain).
  rewrite Hrun. intros [= <-] Hm.
  destruct (Hmain main Hm) as [(entry & Hin & Hx & ->) _].
  exists entry. split; [done|]. split; [done|].
  rewrite !lookup_main_info. repeat split; try done.
  intros key Hkey. rewrite lookup_main_info.
  destruct (info_keys_other key Hkey) as (H1 & H2 & _).
  by rewrite (decide_False (P := key = "match_status"%string)),
    (decide_False (P := key = "similarity_percentage"%string)),
    (decide_True (P := key ∈ info_keys)).
Qed.

Lemma missing_main_match_fields_witness :
  exists entry,
    entry ∈ [Samples.twin1; Samples.other] /\
    entry_percentage "ACGT" entry = Some 100 /\
    Missing.main_info Samples.twin1 100 !! "similarity_percentage"%string
      = Some (Int 100) /\
    Missing.main_info Samples.twin1 100 !! "match_status"%string
      = Some (Str "DNA MATCH") /\
    Missing.main_info Samples.twin1 100 !! "DNA_sequence"%string = None /\
    forall key, key ∈ info_keys ->
      Missing.main_info Samples.twin1 100 !! key = Str <$> entry !! key.
Proof.
  apply (missing_main_match_fields "ACGT" [Samples.twin1; Samples.other]
           (Missing.MainAlone (Missing.main_info Samples.twin1 100))
           (Missing.main_info Samples.twin1 100)).
  - vm_compute. reflexivity.
  - reflexivity.
Defined.

(** ** The population source *)

Lemma api_data_cases (response : Api.fetched) :
  (exists message,
     Api.error (Api.retrieve_api_data response) = Some (Str message)) /\
  Api.population (Api.retrieve_api_data response) = None \/
  exists api_data,
    response = Api.Response 200 (Api.Dict api_data) /\
    is_Some (Api.population api_data) /\
    Api.retrieve_api_data response = api_data.
Proof.
  destruct response as [e|status_code [e| |api_data]]; simpl.
  1: { left. split; [by eexists | done]. }
  all: destruct (Z.eqb_spec status_code 200) as [->|Hne].
  all: try (left; split; [by eexists | done]).
  destruct (Api.population api_data) as [population|] eqn:Hp.
  - right. exists api_data. by rewrite Hp.
  - left. split; [by eexists | done].
Qed.

(** X16: what [retrieve_api_data] returns has an 'error' or a
    'population'.  It has a 'population' exactly when the request came
    back with status 200 and a JSON object that has one, and it is then
    that object, unchanged. *)
Theorem api_data_shape (response : Api.fetched) :
  (is_Some (Api.error (Api.retrieve_api_data response)) \/
   is_Some (Api.population (Api.retrieve_api_data response))) /\
  (is_Some (Api.population (Api.retrieve_api_data response)) <->
   exists api_data,
     response = Api.Response 200 (Api.Dict api_data) /\
     is_Some (Api.population api_data) /\
     Api.retrieve_api_data response = api_data).
Proof.
  destruct response as [e|status_code [e| |api_data]]; simpl.
  1: { split; [by left|]. split; [by intros [? ?] | by intros (? & ? & _)]. }
  all: destruct (Z.eqb_spec status_code 200) as [->|Hne].
  all: try (split; [by left|];
            split; [by intros [? ?] | intros (? & [= ] & _); congruence]).
  destruct (Api.population api_data) as [population|] eqn:Hp.
  - split; [right; by rewrite Hp|]. split.
    + intros _. exists api_data. by rewrite Hp.
    + intros _. by rewrite Hp.
  - split; [by left|]. split; [by intros [? ?]|].
    intros (d & [= <-] & [p Hp'] & _). congruence.
Qed.

(** ** The handlers *)

Lemma similarity_swap A B :
  needleman_wunsch_similarity A B 3 (-1) (-2) =
  needleman_wunsch_similarity B A 3 (-1) (-2).
Proof.
  unfold needleman_wunsch_similarity.
  by rewrite (globalms_swap A B), Nat.max_comm.
Qed.

(** The work of [/compare] on two sequences. *)
Lemma compare_scored sequence_a sequence_b :
  exists s,
    needleman_wunsch_similarity sequence_a sequence_b 3 (-1) (-2) = Some s /\
    run (similarity_score ← score sequence_a sequence_b;
         mret (Routes.Answer
                 (Routes.Comparison (percentage similarity_score)
                    (if Qeq_bool similarity_score 1
                     then "DNA MATCH"%string else "DNA Not MATCH"%string))))
    = (Ok (Routes.Answer
             (Routes.Comparison (percentage s)
                (if Qeq_bool s 1
                 then "DNA MATCH"%string else "DNA Not MATCH"%string))),
       [(sequence_a, sequence_b)]).
Proof.
  destruct (score_ok sequence_a sequence_b []) as (s & Hs & Hsc).
  exists s. split; [done|]. unfold run. by rewrite (bind_ok _ _ _ _ _ Hsc).
Qed.

(** X17: [/compare] refuses a request, with status 401, exactly when one
    of the two uploads is absent or has an empty file name; nothing is
    scored then. *)
Theorem compare_rejections (request : Routes.request) (message : value) :
  (answer (Routes.compare request) = Some (Ok (Routes.Rejected message)) <->
   (Routes.files request !! "file_a"%string = None \/
    Routes.files request !! "file_b"%string = None) /\
   message = Str "Please upload a file for both DNA sequences." \/
   exists file_a file_b,
     Routes.files request !! "file_a"%string = Some file_a /\
     Routes.files request !! "file_b"%string = Some file_b /\
     (Routes.filename file_a = ""%string \/ Routes.filename file_b = ""%string) /\
     message = Str "Please upload non-empty files for both DNA sequences.") /\
  (answer (Routes.compare request) = Some (Ok (Routes.Rejected message)) ->
   scored (Routes.compare request) = Some []).
Proof.
  unfold answer, scored, Routes.compare.
  destruct (Routes.files request !! "file_a"%string) as [file_a|] eqn:Ha;
    destruct (Routes.files request !! "file_b"%string) as [file_b|] eqn:Hb.
  2-4: split; [|done]; split;
       [ intros [= <-]; left; split; [tauto | done]
       | intros [[_ ->]|(? & ? & ? & ? & _)]; [done | congruence] ].
  destruct (decide (_ \/ _)) as [Hname|Hname].
  { split; [|done]. split.
    - intros [= <-]. right. by exists file_a, file_b.
    - intros [[[?|?] _]|(? & ? & _ & _ & _ & ->)]; done. }
  destruct (retrieve_dna_sequence_from_file (Routes.stream file_a) 2000)
    as [sequence_a|]; [|split; [split; [done|] | done]].
  2: { intros [[[?|?] _]|(a & b & [= <-] & [= <-] & ? & _)]; done. }
  destruct (retrieve_dna_sequence_from_file (Routes.stream file_b) 2000)
    as [sequence_b|]; [|split; [split; [done|] | done]].
  2: { intros [[[?|?] _]|(a & b & [= <-] & [= <-] & ? & _)]; done. }
  cbn [mbind option_bind fmap option_fmap option_map].
  destruct (compare_scored sequence_a sequence_b) as (s & _ & ->).
  split; [split; [done|] | done].
  intros [[[?|?] _]|(a & b & [= <-] & [= <-] & ? & _)]; done.
Qed.

(** X18: [/compare] is symmetric: with the two uploads exchanged it gives
    the same answer. *)
Theorem compare_symmetric (request request' : Routes.request) :
  Routes.files request' !! "file_a"%string
    = Routes.files request !! "file_b"%string ->
  Routes.files request' !! "file_b"%string
    = Routes.files request !! "file_a"%string ->
  answer (Routes.compare request') = answer (Routes.compare request).
Proof.
  intros Ha Hb. unfold answer, Routes.compare. rewrite Ha, Hb.
  destruct (Routes.files request !! "file_a"%string) as [file_a|];
    destruct (Routes.files request !! "file_b"%string) as [file_b|]; try done.
  destruct (decide (Routes.filename file_b = ""%string \/
                    Routes.filename file_a = ""%string)) as [H|H];
    destruct (decide (Routes.filename file_a = ""%string \/
                      Routes.filename file_b = ""%string)) as [H'|H'];
    try done; try tauto.
  destruct (retrieve_dna_sequence_from_file (Routes.stream file_a) 2000)
    as [sequence_a|];
    destruct (retrieve_dna_sequence_from_file (Routes.stream file_b) 2000)
      as [sequence_b|]; try done.
  cbn [mbind option_bind fmap option_fmap option_map].
  destruct (compare_scored sequence_a sequence_b) as (s & Hs & ->).
  destruct (compare_scored sequence_b sequence_a) as (s' & Hs' & ->).
  rewrite similarity_swap in Hs'. by assert (s' = s) as -> by congruence.
Qed.

Lemma compare_symmetric_witness :
  answer (Routes.compare
            (Routes.Request "POST"
               {[ "file_a" := Routes.Upload "a.fa" Uploads.acga;
                  "file_b" := Routes.Upload "b.fa" Uploads.acgt ]}%string ∅))
  = answer (Routes.compare
              (Routes.Request "POST"
                 {[ "file_a" := Routes.Upload "b.fa" Uploads.acgt;
                    "file_b" := Routes.Upload "a.fa" Uploads.acga ]}%string ∅)).
Proof.
  apply compare_symmetric; vm_compute; reflexivity.
Defined.

Lemma retrieve_length file max_length s :
  retrieve_dna_sequence_from_file file max_length = Some s ->
  Z.of_nat (String.length s) <= Z.max 0 max_length.
Proof.
  rewrite retrieve_spec. intros [_ ->]%decode_Some.
  rewrite length_take. lia.
Qed.

(** X19: on two uploads that [/compare] accepts, the answer is
    "DNA MATCH" if and only if the two sequences read are the same
    non-empty sequence; the percentage is then 100, and it never exceeds
    100; the scorer is invoked once, on the two sequences read. *)
Theorem compare_match_iff_equal (request : Routes.request)
    (file_a file_b : Routes.FileStorage) (sequence_a sequence_b : string) :
  Routes.files request !! "file_a"%string = Some file_a ->
  Routes.files request !! "file_b"%string = Some file_b ->
  Routes.filename file_a <> ""%string ->
  Routes.filename file_b <> ""%string ->
  retrieve_dna_sequence_from_file (Routes.stream file_a) 2000 = Some sequence_a ->
  retrieve_dna_sequence_from_file (Routes.stream file_b) 2000 = Some sequence_b ->
  exists c,
    answer (Routes.compare request) = Some (Ok (Routes.Answer c)) /\
    scored (Routes.compare request) = Some [(sequence_a, sequence_b)] /\
    (Routes.match_status c = "DNA MATCH"%string <->
     sequence_a = sequence_b /\ sequence_a <> ""%string) /\
    (Routes.match_status c = "DNA MATCH"%string ->
     Routes.similarity_percentage c = 100) /\
    Routes.similarity_percentage c <= 100.
Proof.
  intros Ha Hb Hna Hnb Hsa Hsb. unfold answer, scored, Routes.compare.
  rewrite Ha, Hb, decide_False by tauto. rewrite Hsa, Hsb.
  cbn [mbind option_bind fmap option_fmap option_map].
  destruct (compare_scored sequence_a sequence_b) as (s & Hs & ->).
  eexists. split; [reflexivity|]. split; [reflexivity|].
  cbn [fst Routes.match_status Routes.similarity_percentage].
  destruct (Qeq_bool s 1) eqn:E.
  - apply Qeq_bool_iff in E. split; [|split].
    + split; [|done]. intros _. apply similarity_one_iff. by exists s.
    + intros _. by apply percentage_of_one.
    + rewrite (percentage_of_one s E). lia.
  - split; [|split].
    + split; [done|]. intros (s' & Hs' & H1)%similarity_one_iff.
      assert (s' = s) as -> by congruence.
      apply Qeq_bool_iff in H1. congruence.
    + done.
    + by apply percentage_le_100, (default_similarity_le_1 _ _ _ Hs).
Qed.

Lemma compare_match_iff_equal_witness :
  exists c,
    answer (Routes.compare
              (Routes.Request "POST"
                 {[ "file_a" := Routes.Upload "a.fa" Uploads.fasta;
                    "file_b" := Routes.Upload "b.fa" Uploads.plain ]}%string ∅))
      = Some (Ok (Routes.Answer c)) /\
    scored (Routes.compare
              (Routes.Request "POST"
                 {[ "file_a" := Routes.Upload "a.fa" Uploads.fasta;
                    "file_b" := Routes.Upload "b.fa" Uploads.plain ]}%string ∅))
      = Some [("ACGTGGCCTTAA", "ACGTGGCCTTAA")]%string /\
    (Routes.match_status c = "DNA MATCH"%string <->
     "ACGTGGCCTTAA"%string = "ACGTGGCCTTAA"%string /\
     "ACGTGGCCTTAA"%string <> ""%string) /\
    (Routes.match_status c = "DNA MATCH"%string ->
     Routes.similarity_percentage c = 100) /\
    Routes.similarity_percentage c <= 100.
Proof.
  apply (compare_match_iff_equal _ (Routes.Upload "a.fa" Uploads.fasta)
           (Routes.Upload "b.fa" Uploads.plain));
    try (vm_compute; reflexivity); discriminate.
Defined.

(** What the handlers do once the upload and the population are there. *)
Lemma answered {A} (m : Eng A) :
  (exists r, run (r ← m; mret (Routes.Answer r))
             = (Ok (Routes.Answer r), snd (run m)) /\
             fst (run m) = Ok r) \/
  (exists e, fst (run (r ← m; mret (Routes.Answer r))) = Raise e).
Proof.
  unfold run, mbind, eng_bind.
  destruct (m []) as [[r|e] log]; [left; by exists r | right; by exists e].
Qed.

(** X20: [/identify] refuses a request, with status 401, exactly when the
    upload is absent, or has an empty file name, or the population could
    not be had; it has scored nothing then.  An invalid status is only
    looked at after these checks. *)
Theorem identify_rejections (request : Routes.request)
    (response : Api.fetched) (m : Eng (Routes.reply Identify.response)) :
  Routes.identify request response = Some m ->
  ((exists message, fst (run m) = Ok (Routes.Rejected message)) <->
   Routes.files request !! "file"%string = None \/
   (exists file_a, Routes.files request !! "file"%string = Some file_a /\
                   Routes.filename file_a = ""%string) \/
   is_Some (Api.error (Api.retrieve_api_data response))) /\
  ((exists message, fst (run m) = Ok (Routes.Rejected message)) ->
   snd (run m) = []).
Proof.
  unfold Routes.identify.
  destruct (Routes.files request !! "file"%string) as [file_a|] eqn:Hfile.
  2: { intros [= <-]. split; [|done]. split; [by left | by eexists]. }
  destruct (decide (Routes.filename file_a = ""%string)) as [Hname|Hname].
  { intros [= <-]. split; [|done].
    split; [right; left; by exists file_a | by eexists]. }
  destruct (Api.error (Api.retrieve_api_data response)) as [message|] eqn:He.
  { intros [= <-]. split; [|done]. split; [by right; right | by eexists]. }
  assert (~ (Some file_a = None \/
             (exists f, Some file_a = Some f /\ Routes.filename f = ""%string) \/
             is_Some (@None value))) as Hno.
  { intros [?|[(f & [= <-] & ?)|[? ?]]]; done. }
  destruct (retrieve_dna_sequence_from_file _ _) as [sequence_a|]; [|done].
  cbn [mbind option_bind].
  destruct (Api.population _) as [population|]; intros [= <-].
  - destruct (answered (Identify.identify sequence_a population
                          (Routes.form request !! "status"%string)))
      as [(r & -> & _)|(e & ->)];
      (split; [split; [by intros [? ?] | tauto] | by intros [? ?]]).
  - split; [|by intros [? ?]]. split; [by intros [? ?] | tauto].
Qed.

Lemma identify_rejections_witness :
  exists m message,
    Routes.identify
      (Routes.Request "POST" (∅ : gmap string Routes.FileStorage)
         ({[ "status" := "crime" ]} : gmap string string)%string)
      (Api.Failed "timeout") = Some m /\
    fst (run m) = Ok (Routes.Rejected message) /\ snd (run m) = [].
Proof.
  assert (Routes.identify
            (Routes.Request "POST" (∅ : gmap string Routes.FileStorage)
               ({[ "status" := "crime" ]} : gmap string string)%string)
            (Api.Failed "timeout")
          = Some (mret (Routes.Rejected
                          (Str "Please upload a file of DNA sequences."))))
    as Hrun by (vm_compute; reflexivity).
  destruct (identify_rejections _ _ _ Hrun) as [[_ Hrejected] Hscored].
  destruct Hrejected as [message Hm]; [by left|].
  eexists _, message. split; [exact Hrun|]. split; [exact Hm|].
  apply Hscored. by exists message.
Defined.

(** X21: an answer of [/identify] other than a refusal is the answer of
    the scan, on a query of at most 2000 symbols read from the upload and
    on the population of a response with status 200; the scorer is
    invoked by the scan only.  The loop is never skipped for want of a
    population. *)
Theorem identify_answers_from_scan (request : Routes.request)
    (response : Api.fetched) (m : Eng (Routes.reply Identify.response))
    (r : Identify.response) :
  Routes.identify request response = Some m ->
  fst (run m) = Ok (Routes.Answer r) ->
  exists file_a sequence_a api_data population,
    Routes.files request !! "file"%string = Some file_a /\
    retrieve_dna_sequence_from_file (Routes.stream file_a) 2000
      = Some sequence_a /\
    (String.length sequence_a <= 2000)%nat /\
    response = Api.Response 200 (Api.Dict api_data) /\
    Api.population api_data = Some population /\
    run (Identify.identify sequence_a population
           (Routes.form request !! "status"%string))
    = (Ok r, snd (run m)).
Proof.
  unfold Routes.identify.
  destruct (Routes.files request !! "file"%string) as [file_a|]; [|by intros [= <-]].
  destruct (decide (Routes.filename file_a = ""%string)); [by intros [= <-]|].
  destruct (Api.error (Api.retrieve_api_data response)) eqn:He;
    [by intros [= <-]|].
  destruct (retrieve_dna_sequence_from_file _ _) as [sequence_a|] eqn:Hs; [|done].
  cbn [mbind option_bind].
  destruct (api_data_cases response)
    as [[[message Herr] _]|(api_data & -> & Hp & Hr)]; [congruence|].
  rewrite Hr. destruct Hp as [population Hp]. rewrite Hp. intros [= <-] Hrun.
  exists file_a, sequence_a, api_data, population.
  repeat split; try done.
  - apply retrieve_length in Hs. lia.
  - destruct (answered (Identify.identify sequence_a population
                          (Routes.form request !! "status"%string)))
      as [(r' & Hm & Hr')|(e & Hm)]; [|by rewrite Hm in Hrun].
    rewrite Hm in Hrun |- *. injection Hrun as <-. cbn [snd].
    rewrite <- Hr'. apply surjective_pairing.
Qed.

Lemma identify_answers_from_scan_witness :
  exists file_a sequence_a api_data population,
    Routes.files (Requests.search "missing") !! "file"%string = Some file_a /\
    retrieve_dna_sequence_from_file (Routes.stream file_a) 2000
      = Some sequence_a /\
    (String.length sequence_a <= 2000)%nat /\
    Requests.served = Api.Response 200 (Api.Dict api_data) /\
    Api.population api_data = Some population /\
    run (Identify.identify sequence_a population
           (Routes.form (Requests.search "missing") !! "status"%string))
    = (Ok (Identify.Identification (select_info Samples.twin1) 100),
       [("ACGT", "ACGA"); ("ACGT", "ACGT")]%string).
Proof.
  assert (exists m,
            Routes.identify (Requests.search "missing") Requests.served = Some m /\
            run m = (Ok (Routes.Answer
                           (Identify.Identification (select_info Samples.twin1) 100)),
                     [("ACGT", "ACGA"); ("ACGT", "ACGT")]%string))
    as (m & Hm & Hrun) by (eexists; split; [reflexivity | vm_compute; reflexivity]).
  replace [("ACGT", "ACGA"); ("ACGT", "ACGT")]%string with (snd (run m))
    by (by rewrite Hrun).
  apply (identify_answers_from_scan _ _ m _ Hm). by rewrite Hrun.
Defined.

(** X22: an answer of [/missing] other than a page or a refusal is the
    answer of the scan, on a query of at most 2000 symbols read from the
    upload and on the population of a response with status 200; the
    scorer is invoked by the scan only. *)
Theorem missing_answers_from_scan (request : Routes.request)
    (response : Api.fetched) (m : Eng (Routes.reply Missing.response))
    (r : Missing.response) :
  Routes.missing request response = Some m ->
  fst (run m) = Ok (Routes.Answer r) ->
  exists file_a sequence_a api_data population,
    Routes.method request <> "GET"%string /\
    Routes.files request !! "file"%string = Some file_a /\
    retrieve_dna_sequence_from_file (Routes.stream file_a) 2000
      = Some sequence_a /\
    (String.length sequence_a <= 2000)%nat /\
    response = Api.Response 200 (Api.Dict api_data) /\
    Api.population api_data = Some population /\
    run (Missing.missing sequence_a population) = (Ok r, snd (run m)).
Proof.
  unfold Routes.missing.
  destruct (decide (Routes.method request = "GET"%string)); [by intros [= <-]|].
  destruct (Routes.files request !! "file"%string) as [file_a|]; [|by intros [= <-]].
  destruct (decide (Routes.filename file_a = ""%string)); [by intros [= <-]|].
  destruct (retrieve_dna_sequence_from_file _ _) as [sequence_a|] eqn:Hs; [|done].
  cbn [mbind option_bind].
  destruct (Api.error (Api.retrieve_api_data response)) eqn:He;
    [by intros [= <-]|].
  destruct (api_data_cases response)
    as [[[message Herr] _]|(api_data & -> & Hp & Hr)]; [congruence|].
  rewrite Hr. destruct Hp as [population Hp]. rewrite Hp. intros [= <-] Hrun.
  exists file_a, sequence_a, api_data, population.
  repeat split; try done.
  - apply retrieve_length in Hs. lia.
  - destruct (answered (Missing.missing sequence_a population))
      as [(r' & Hm & Hr')|(e & Hm)]; [|by rewrite Hm in Hrun].
    rewrite Hm in Hrun |- *. injection Hrun as <-. cbn [snd].
    rewrite <- Hr'. apply surjective_pairing.
Qed.

Lemma missing_answers_from_scan_witness :
  exists file_a sequence_a api_data population,
    Routes.method (Requests.search "any") <> "GET"%string /\
    Routes.files (Requests.search "any") !! "file"%string = Some file_a /\
    retrieve_dna_sequence_from_file (Routes.stream file_a) 2000
      = Some sequence_a /\
    (String.length sequence_a <= 2000)%nat /\
    Requests.served = Api.Response 200 (Api.Dict api_data) /\
    Api.population api_data = Some population /\
    run (Missing.missing sequence_a population)
    = (Ok (Missing.MainWithRelatives (Missing.main_info Samples.twin2 100)
             [Missing.Relative (select_info Samples.twin1)]),
       [("ACGT", "ACGA"); ("ACGT", "ACGT"); ("ACGT", "ACGT")]%string).
Proof.
  assert (exists m,
            Routes.missing (Requests.search "any") Requests.served = Some m /\
            run m = (Ok (Routes.Answer
                           (Missing.MainWithRelatives
                              (Missing.main_info Samples.twin2 100)
                              [Missing.Relative (select_info Samples.twin1)])),
                     [("ACGT", "ACGA"); ("ACGT", "ACGT"); ("ACGT", "ACGT")]%string))
    as (m & Hm & Hrun) by (eexists; split; [reflexivity | vm_compute; reflexivity]).
  replace [("ACGT", "ACGA"); ("ACGT", "ACGT"); ("ACGT", "ACGT")]%string
    with (snd (run m)) by (by rewrite Hrun).
  apply (missing_answers_from_scan _ _ m _ Hm). by rewrite Hrun.
Defined.

(** X23: [/missing] renders its page on a GET request, whatever else the
    request holds, and only then; on any other request it refuses, with
    status 401, exactly when the upload is absent, or has an empty file
    name, or the population could not be had.  A page or a refusal comes
    without any scoring. *)
Theorem missing_pages_and_rejections (request : Routes.request)
    (response : Api.fetched) (m : Eng (Routes.reply Missing.response)) :
  Routes.missing request response = Some m ->
  (forall template,
     fst (run m) = Ok (Routes.Page template) <->
     Routes.method request = "GET"%string /\ template = "missing.html"%string) /\
  ((exists message, fst (run m) = Ok (Routes.Rejected message)) <->
   Routes.method request <> "GET"%string /\
   (Routes.files request !! "file"%string = None \/
    (exists file_a, Routes.files request !! "file"%string = Some file_a /\
                    Routes.filename file_a = ""%string) \/
    is_Some (Api.error (Api.retrieve_api_data response)))) /\
  ((forall r, fst (run m) <> Ok (Routes.Answer r)) -> snd (run m) = []).
Proof.
  unfold Routes.missing.
  destruct (decide (Routes.method request = "GET"%string)) as [Hget|Hget].
  { intros [= <-]. split; [|split]; [| |done].
    - intros template. split; [by intros [= <-] | by intros [_ ->]].
    - split; [by intros [? ?] | tauto]. }
  destruct (Routes.files request !! "file"%string) as [file_a|] eqn:Hfile.
  2: { intros [= <-]. split; [|split]; [| |done].
       - intros template. split; [done | tauto].
       - split; [intros _; split; [done | by left] | by eexists]. }
  destruct (decide (Routes.filename file_a = ""%string)) as [Hname|Hname].
  { intros [= <-]. split; [|split]; [| |done].
    - intros template. split; [done | tauto].
    - split; [|by eexists]. intros _. split; [done|].
      right; left. by exists file_a. }
  destruct (retrieve_dna_sequence_from_file _ _) as [sequence_a|]; [|done].
  cbn [mbind option_bind].
  destruct (Api.error (Api.retrieve_api_data response)) as [message|] eqn:He.
  { intros [= <-]. split; [|split]; [| |done].
    - intros template. split; [done | tauto].
    - split; [|by eexists]. intros _. split; [done | by right; right]. }
  assert (~ (Some file_a = None \/
             (exists f, Some file_a = Some f /\ Routes.filename f = ""%string) \/
             is_Some (@None value))) as Hno.
  { intros [?|[(f & [= <-] & ?)|[? ?]]]; done. }
  destruct (Api.population _) as [population|]; intros [= <-].
  - destruct (answered (Missing.missing sequence_a population))
      as [(r & Hm & _)|(e & Hm)]; rewrite Hm.
    + split; [|split].
      * intros template. split; [done | tauto].
      * split; [by intros [? ?] | tauto].
      * intros Hnot. by destruct (Hnot r).
    + split; [|split].
      * intros template. split; [done | tauto].
      * split; [by intros [? ?] | tauto].
      * intros _. exfalso.
        pose proof (missing_spec sequence_a population) as Hspec.
        unfold run, mbind, eng_bind in Hm, Hspec. rewrite Hspec in Hm.
        discriminate Hm.
  - split; [|split].
    + intros template. split; [done | tauto].
    + split; [by intros [? ?] | tauto].
    + intros Hnot. by destruct (Hnot Missing.NoMatch).
Qed.

Lemma missing_pages_and_rejections_witness :
  exists m,
    Routes.missing Requests.page (Api.Failed "timeout") = Some m /\
    fst (run m) = Ok (Routes.Page "missing.html") /\ snd (run m) = [].
Proof.
  assert (Routes.missing Requests.page (Api.Failed "timeout")
          = Some (mret (Routes.Page "missing.html"))) as Hrun
    by (vm_compute; reflexivity).
  destruct (missing_pages_and_rejections _ _ _ Hrun) as (Hpage & _ & Hscored).
  eexists. split; [exact Hrun|]. split.
  - apply Hpage. split; reflexivity.
  - apply Hscored. intros r. discriminate.
Defined.

Example route_answers :
  answer (Routes.identify (Requests.search "missing") Requests.served)
    = Some (Ok (Routes.Answer
                  (Identify.Identification (select_info Samples.twin1) 100))) /\
  answer (Routes.identify (Requests.search "unknown_status") Requests.served)
    = Some (Ok (Routes.Answer Identify.InvalidStatus)) /\
  answer (Routes.identify (Requests.search "unknown_status")
            (Api.Response 503 Api.NotDict))
    = Some (Ok (Routes.Rejected (Str "Failed to retrieve data from API"))) /\
  answer (Routes.identify Requests.page Requests.served)
    = Some (Ok (Routes.Rejected (Str "Please upload a file of DNA sequences."))) /\
  answer (Routes.missing Requests.page Requests.served)
    = Some (Ok (Routes.Page "missing.html")).
Proof. repeat split; vm_compute; reflexivity. Qed.


